(** * NetworkPolicy configuration manager and generator

    A shallow embedding of the NetworkPolicy logic of the tutorials:

    - [pytest_yaml_tutorial/src/config_manager.py]
      ([NetworkPolicyConfigManager], module [ConfigManager] below),
    - [sdn-everything/src/network_policies.py]
      ([NetworkPolicyGenerator], module [Generator] below),
    - [pytest_yaml_tutorial/examples/step4_yaml_validation.py]
      ([ConfigValidator.validate_spec], module [Step4] below).

    The modules also hold the other methods of these classes that can be
    read as functions of their arguments, and module [Step6] two methods of
    [NetworkPolicyWorkflow] ([examples/step6_integration.py]), which calls
    the manager.

    Documents are the untyped values the Python code manipulates (what
    [yaml.safe_load] returns and what the dict literals build).  Python
    exceptions are an explicit result type; in-place mutation of a document
    is explicit state passing, so that the state of a document after a call
    that raised is still observable.  A document is a tree: no list or dict
    sits at two places of it, which is what the generators build and what a
    file without YAML aliases loads to. *)

From Stdlib Require Import String Ascii List ZArith Bool Lia DecimalString.
Import ListNotations.
#[local] Set Warnings "-register-all".
Open Scope string_scope.

(** ** Python values *)

(** The values a YAML document is made of.  A [dict] keeps its insertion
    order, as Python's does, and its keys are strings (the only keys the
    code ever looks up).  Floats are left out.  A [str] is a sequence of
    code points below 256. *)
Inductive value : Type :=
| VNone
| VBool (b : bool)
| VInt (n : Z)
| VStr (s : string)
| VList (items : list value)
| VDict (entries : list (string * value)).

(** Exceptions.  [TypeError] and [AttributeError] are the interpreter's own
    (their message text is never inspected by the code); the others carry
    what the code puts in them. *)
Inductive exn : Type :=
| TypeError
| AttributeError
| KeyError (key : string)
| ValueError (msg : string)
| ConfigValidationError (msg : string).

Inductive result (E A : Type) : Type :=
| Ok (a : A)
| Raise (e : E).
Arguments Ok {E A} a.
Arguments Raise {E A} e.

Definition bind {E A B : Type} (m : result E A) (k : A -> result E B)
  : result E B :=
  match m with
  | Ok a => k a
  | Raise e => Raise e
  end.

(** [try: m except Exception as e: h e] *)
Definition try_except {E E' A : Type} (m : result E A)
  (h : E -> result E' A) : result E' A :=
  match m with
  | Ok a => Ok a
  | Raise e => h e
  end.

Declare Scope py_scope.
Delimit Scope py_scope with py.
Notation "x <- m ;; k" := (bind m (fun x => k))
  (at level 61, m at next level, right associativity) : py_scope.
Notation "m ;;; k" := (bind m (fun _ => k))
  (at level 61, right associativity) : py_scope.
Open Scope py_scope.

(** ** Strings *)

Fixpoint is_prefix (p s : string) : bool :=
  match p, s with
  | EmptyString, _ => true
  | String a p', String b s' => Ascii.eqb a b && is_prefix p' s'
  | String _ _, EmptyString => false
  end.

(** [p in s] for two strings. *)
Fixpoint is_substring (p s : string) : bool :=
  is_prefix p s ||
  match s with
  | EmptyString => false
  | String _ s' => is_substring p s'
  end.

Fixpoint str_chars (s : string) : list string :=
  match s with
  | EmptyString => []
  | String a s' => String a EmptyString :: str_chars s'
  end.

Fixpoint str_mem (a : ascii) (s : string) : bool :=
  match s with
  | EmptyString => false
  | String b s' => Ascii.eqb a b || str_mem a s'
  end.

Fixpoint join (sep : string) (l : list string) : string :=
  match l with
  | [] => EmptyString
  | [x] => x
  | x :: rest => x ++ sep ++ join sep rest
  end.

Definition hex_digit (n : N) : ascii :=
  match n with
  | 0%N => "0" | 1%N => "1" | 2%N => "2" | 3%N => "3" | 4%N => "4"
  | 5%N => "5" | 6%N => "6" | 7%N => "7" | 8%N => "8" | 9%N => "9"
  | 10%N => "a" | 11%N => "b" | 12%N => "c" | 13%N => "d" | 14%N => "e"
  | _ => "f"
  end%char.

(** [repr] of one character inside quotes [q]: the quote and the backslash
    are escaped, tab, newline and carriage return have their letter, and the
    code points that are not printable are written [\xNN]. *)
Definition repr_char (q : ascii) (c : ascii) : string :=
  let n := N_of_ascii c in
  if Ascii.eqb c q || Ascii.eqb c "\"%char then String "\"%char (String c EmptyString)
  else if N.eqb n 9 then "\t"
  else if N.eqb n 10 then "\n"
  else if N.eqb n 13 then "\r"
  else if N.ltb n 32 || (N.leb 127 n && N.leb n 160) || N.eqb n 173
  then String "\"%char (String "x"%char
         (String (hex_digit (N.div n 16)) (String (hex_digit (N.modulo n 16)) EmptyString)))
  else String c EmptyString.

Fixpoint repr_chars (q : ascii) (s : string) : string :=
  match s with
  | EmptyString => EmptyString
  | String c s' => repr_char q c ++ repr_chars q s'
  end.

Definition squote : ascii := "'"%char.
Definition dquote : ascii := Ascii.ascii_of_nat 34.

(** [repr(s)]: single quotes, unless the string has a single quote and no
    double quote. *)
Definition repr_str (s : string) : string :=
  let q := if str_mem squote s && negb (str_mem dquote s) then dquote else squote in
  String q (repr_chars q s ++ String q EmptyString).

Definition str_of_int (n : Z) : string := NilEmpty.string_of_int (Z.to_int n).

(** [repr(v)] *)
Fixpoint py_repr (v : value) : string :=
  match v with
  | VNone => "None"
  | VBool true => "True"
  | VBool false => "False"
  | VInt n => str_of_int n
  | VStr s => repr_str s
  | VList items => "[" ++ join ", " (map py_repr items) ++ "]"
  | VDict entries =>
      "{" ++ join ", " (map (fun kv => match kv with
                                      | (k, x) => repr_str k ++ ": " ++ py_repr x
                                      end) entries) ++ "}"
  end.

(** [str(v)], what an f-string field [{v}] renders. *)
Definition py_str (v : value) : string :=
  match v with
  | VStr s => s
  | _ => py_repr v
  end.


(** ** The data-model operations the code relies on *)

Fixpoint lookup (k : string) (entries : list (string * value)) : option value :=
  match entries with
  | [] => None
  | (k', x) :: rest => if String.eqb k k' then Some x else lookup k rest
  end.

Definition has_key (k : string) (entries : list (string * value)) : bool :=
  match lookup k entries with
  | Some _ => true
  | None => false
  end.

(** [d[k] = x] on a dict: the value of an existing key is replaced where it
    stands, a new key goes last. *)
Fixpoint store (k : string) (x : value) (entries : list (string * value))
  : list (string * value) :=
  match entries with
  | [] => [(k, x)]
  | (k', y) :: rest =>
      if String.eqb k k' then (k', x) :: rest else (k', y) :: store k x rest
  end.

(** [v == s] for a string [s]: only a [str] equals a [str]. *)
Definition eq_str (v : value) (s : string) : bool :=
  match v with
  | VStr s' => String.eqb s' s
  | _ => false
  end.

(** [v not in valid] for a list [valid] of strings. *)
Definition invalid_type (valid : list string) (v : value) : bool :=
  negb (existsb (eq_str v) valid).

(** [k in c] for a string [k]: key membership in a dict, element membership
    in a list, substring test in a str; the other values are no containers. *)
Definition py_contains (k : string) (c : value) : result exn bool :=
  match c with
  | VDict entries => Ok (has_key k entries)
  | VList items => Ok (existsb (fun x => eq_str x k) items)
  | VStr s => Ok (is_substring k s)
  | _ => Raise TypeError
  end.

(** [c[k]] for a string [k]. *)
Definition py_getitem (c : value) (k : string) : result exn value :=
  match c with
  | VDict entries =>
      match lookup k entries with
      | Some x => Ok x
      | None => Raise (KeyError k)
      end
  | _ => Raise TypeError
  end.

(** [c.get(k)] *)
Definition py_get (c : value) (k : string) : result exn value :=
  match c with
  | VDict entries =>
      match lookup k entries with
      | Some x => Ok x
      | None => Ok VNone
      end
  | _ => Raise AttributeError
  end.

(** [c[k] = x], giving the container after the assignment. *)
Definition py_setitem (c : value) (k : string) (x : value) : result exn value :=
  match c with
  | VDict entries => Ok (VDict (store k x entries))
  | _ => Raise TypeError
  end.

(** [c.append(x)], giving the container after the call. *)
Definition py_append (c : value) (x : value) : result exn value :=
  match c with
  | VList items => Ok (VList (items ++ [x]))
  | _ => Raise AttributeError
  end.

(** [for x in c]: the elements of a list, the keys of a dict, the characters
    of a str. *)
Definition py_iter (c : value) : result exn (list value) :=
  match c with
  | VList items => Ok items
  | VDict entries => Ok (map (fun kv => VStr (fst kv)) entries)
  | VStr s => Ok (map VStr (str_chars s))
  | _ => Raise TypeError
  end.

(** Truth value of [v], as [if v:] and [not v] take it. *)
Definition truthy (v : value) : bool :=
  match v with
  | VNone => false
  | VBool b => b
  | VInt n => negb (Z.eqb n 0)
  | VStr s => negb (String.eqb s EmptyString)
  | VList items => match items with [] => false | _ => true end
  | VDict entries => match entries with [] => false | _ => true end
  end.

Definition is_dict (v : value) : bool :=
  match v with VDict _ => true | _ => false end.

(** [c.get(k, default)] *)
Definition py_get_default (c : value) (k : string) (default : value)
  : result exn value :=
  match c with
  | VDict entries =>
      match lookup k entries with
      | Some x => Ok x
      | None => Ok default
      end
  | _ => Raise AttributeError
  end.

(** [v[k1][k2]...] *)
Fixpoint get_path (v : value) (path : list string) : result exn value :=
  match path with
  | [] => Ok v
  | k :: rest => x <- py_getitem v k ;; get_path x rest
  end.

(** A statement that changes the object held in [c[k]] in place: the object
    is fetched, changed by [f], and [c] holds the changed object at [k]. *)
Definition update_in (c : value) (k : string)
  (f : value -> result exn value) : result exn value :=
  x <- py_getitem c k ;;
  x' <- f x ;;
  py_setitem c k x'.

(** Sequencing of statements over an object mutated in place: a statement
    either completes, giving the next state, or raises and has changed
    nothing; what earlier statements did stays done. *)
Definition stmt {A : Type} (s : value) (st : value -> result exn value)
  (k : value -> value * result exn A) : value * result exn A :=
  match st s with
  | Ok s' => k s'
  | Raise e => (s, Raise e)
  end.

(** [len(c)] *)
Definition py_len (c : value) : result exn Z :=
  match c with
  | VList items => Ok (Z.of_nat (List.length items))
  | VDict entries => Ok (Z.of_nat (List.length entries))
  | VStr s => Ok (Z.of_nat (String.length s))
  | _ => Raise TypeError
  end.

(** [x is not None] *)
Definition is_not_none (x : value) : bool :=
  match x with
  | VNone => false
  | _ => true
  end.

(** Equality of two values that can be members of a set: [True] and [False]
    are the integers 1 and 0, a str equals a str, [None] equals [None]. *)
Definition as_int (x : value) : option Z :=
  match x with
  | VBool b => Some (if b then 1 else 0)%Z
  | VInt n => Some n
  | _ => None
  end.

Definition hashable_eqb (x y : value) : bool :=
  match x, y with
  | VNone, VNone => true
  | VStr s, VStr t => String.eqb s t
  | _, _ =>
      match as_int x, as_int y with
      | Some m, Some n => Z.eqb m n
      | _, _ => false
      end
  end.

(** [members.add(x)]: a list or a dict cannot be hashed; an element equal to
    [x] stays as it is.  The members are kept in the order they came in;
    the order Python lists them in is not specified. *)
Definition set_add (members : list value) (x : value) : result exn (list value) :=
  match x with
  | VList _ | VDict _ => Raise TypeError
  | _ => Ok (if existsb (hashable_eqb x) members then members
             else (members ++ [x])%list)
  end.

(** ** config_manager.py *)

Module ConfigManager.

Record ValidationRules : Type := {
  required_fields : list string;
  api_version : string;
  kind : string;
  required_metadata : list string;
  required_spec : list string;
  valid_policy_types : list string
}.

Definition _setup_validation_rules : ValidationRules := {|
  required_fields := ["apiVersion"; "kind"; "metadata"; "spec"];
  api_version := "networking.k8s.io/v1";
  kind := "NetworkPolicy";
  required_metadata := ["name"];
  required_spec := ["podSelector"];
  valid_policy_types := ["Ingress"; "Egress"]
|}.

Record NetworkPolicyConfigManager : Type := {
  configs : list value;
  validation_rules : ValidationRules
}.

(** [__init__] *)
Definition init : NetworkPolicyConfigManager := {|
  configs := [];
  validation_rules := _setup_validation_rules
|}.

(** The loop that fills [missing_fields]. *)
Fixpoint missing_fields_loop (fields : list string) (config : value)
  (missing_fields : list string) : result exn (list string) :=
  match fields with
  | [] => Ok missing_fields
  | field :: rest =>
      present <- py_contains field config ;;
      missing_fields_loop rest config
        (if present then missing_fields else missing_fields ++ [field])
  end.

(** [for field in fields: if field not in section: raise ...] *)
Fixpoint require_fields (prefix : string) (fields : list string)
  (section : value) : result exn unit :=
  match fields with
  | [] => Ok tt
  | field :: rest =>
      present <- py_contains field section ;;
      if present then require_fields prefix rest section
      else Raise (ConfigValidationError ("Missing " ++ prefix ++ "." ++ field))
  end.

(** [for policy_type in ...: if policy_type not in valid: raise ...] *)
Fixpoint policy_types_loop (valid : list string) (policy_types : list value)
  : result exn unit :=
  match policy_types with
  | [] => Ok tt
  | policy_type :: rest =>
      if invalid_type valid policy_type
      then Raise (ConfigValidationError
                    ("Invalid policyType: " ++ py_str policy_type))
      else policy_types_loop valid rest
  end.

Definition validate_network_policy (self : NetworkPolicyConfigManager)
  (config : value) : result exn bool :=
  let rules := validation_rules self in
  (* Check required top-level fields *)
  missing_fields <- missing_fields_loop (required_fields rules) config [] ;;
  match missing_fields with
  | _ :: _ =>
      Raise (ConfigValidationError
               ("Missing required fields: "
                  ++ py_str (VList (map VStr missing_fields))))
  | [] =>
      (* Validate API version *)
      apiVersion <- py_getitem config "apiVersion" ;;
      if negb (eq_str apiVersion (api_version rules))
      then Raise (ConfigValidationError
                    ("Invalid apiVersion: " ++ py_str apiVersion
                       ++ ", expected: " ++ api_version rules))
      else
      (* Validate kind *)
      kind_ <- py_getitem config "kind" ;;
      if negb (eq_str kind_ (kind rules))
      then Raise (ConfigValidationError
                    ("Invalid kind: " ++ py_str kind_
                       ++ ", expected: " ++ kind rules))
      else
      (* Validate metadata *)
      metadata <- py_getitem config "metadata" ;;
      require_fields "metadata" (required_metadata rules) metadata ;;;
      (* Validate spec *)
      spec <- py_getitem config "spec" ;;
      require_fields "spec" (required_spec rules) spec ;;;
      (* Validate policy types if present *)
      has_types <- py_contains "policyTypes" spec ;;
      (if has_types
       then policy_types <- py_getitem spec "policyTypes" ;;
            items <- py_iter policy_types ;;
            policy_types_loop (valid_policy_types rules) items
       else Ok tt) ;;;
      (* the log line formats metadata['name'] *)
      name <- py_getitem metadata "name" ;;
      let _ := "Validation passed for: " ++ py_str name in
      Ok true
  end.

Definition generate_basic_policy (self : NetworkPolicyConfigManager)
  (name namespace app_label : string) : value :=
  VDict [
    ("apiVersion", VStr "networking.k8s.io/v1");
    ("kind", VStr "NetworkPolicy");
    ("metadata", VDict [
       ("name", VStr name);
       ("namespace", VStr namespace);
       ("labels", VDict [("generated-by", VStr "config-manager")])]);
    ("spec", VDict [
       ("podSelector", VDict [("matchLabels", VDict [("app", VStr app_label)])]);
       ("policyTypes", VList [VStr "Ingress"; VStr "Egress"])])
  ].

(** The rule dict [add_ingress_rule] builds: [ports] is stored only when
    it is true as a condition. *)
Definition ingress_rule (from_selectors ports : value) : value :=
  let rule := [("from", from_selectors)] in
  VDict (if truthy ports then store "ports" ports rule else rule).

(** [add_ingress_rule] mutates [config] and returns it.  The first
    component of the result is [config] as the call leaves it, whether it
    returns or raises; [ports] is [VNone] when the argument is left out. *)
Definition add_ingress_rule (self : NetworkPolicyConfigManager)
  (config from_selectors ports : value) : value * result exn value :=
  stmt config
    (fun config =>
       spec <- py_getitem config "spec" ;;
       has_ingress <- py_contains "ingress" spec ;;
       if negb has_ingress
       then update_in config "spec"
              (fun spec => py_setitem spec "ingress" (VList []))
       else Ok config)
    (fun config =>
  let rule := ingress_rule from_selectors ports in
  stmt config
    (fun config =>
       update_in config "spec"
         (fun spec => update_in spec "ingress"
            (fun ingress => py_append ingress rule)))
    (fun config =>
  (* Ensure Ingress is in policyTypes *)
  stmt config
    (fun config =>
       policy_types <- get_path config ["spec"; "policyTypes"] ;;
       has_type <- py_contains "Ingress" policy_types ;;
       if negb has_type
       then update_in config "spec"
              (fun spec => update_in spec "policyTypes"
                 (fun policy_types => py_append policy_types (VStr "Ingress")))
       else Ok config)
    (fun config => (config, Ok config)))).

(** *** Loading

    [open] and [yaml.safe_load] are collaborators: the file system gives the
    text of a path or raises, the parser gives a value or raises.  What can
    be raised inside the [try] block of the loader is one of their
    exceptions, with its [str], or the loader's own
    [ConfigValidationError]. *)
Inductive load_exn : Type :=
| FileNotFoundError
| YAMLError (msg : string)
| OtherException (msg : string)
| RaisedConfigValidationError (msg : string).

Section Loading.

Variable open_read : string -> result load_exn string.
Variable safe_load : string -> result load_exn value.

Definition load_config_from_file (self : NetworkPolicyConfigManager)
  (file_path : string) : result exn value :=
  try_except
    (text <- open_read file_path ;;
     config <- safe_load text ;;
     match config with
     | VNone =>
         Raise (RaisedConfigValidationError
                  ("Empty configuration file: " ++ file_path))
     | _ => Ok config
     end)
    (fun e =>
       match e with
       | FileNotFoundError =>
           Raise (ConfigValidationError
                    ("Configuration file not found: " ++ file_path))
       | YAMLError msg =>
           Raise (ConfigValidationError
                    ("Invalid YAML in " ++ file_path ++ ": " ++ msg))
       | OtherException msg
       | RaisedConfigValidationError msg =>
           Raise (ConfigValidationError
                    ("Error loading " ++ file_path ++ ": " ++ msg))
       end).

End Loading.

(** The collaborators of [load_multiple_configs], whose handler formats
    whatever was raised: a failure carries the [str] of the exception. *)
Section LoadingMany.

Variable open_read : string -> result string string.
Variable safe_load_all : string -> result string (list value).

Definition load_multiple_configs (self : NetworkPolicyConfigManager)
  (file_path : string) : result exn (list value) :=
  try_except
    (text <- open_read file_path ;;
     configs <- safe_load_all text ;;
     (* Filter out None values (empty documents) *)
     let configs := filter is_not_none configs in
     Ok configs)
    (fun e =>
       Raise (ConfigValidationError ("Error loading multiple configs: " ++ e))).

End LoadingMany.

(** *** Summary *)

(** [if key in config['spec']: summary[count_key] = len(config['spec'][key])] *)
Definition count_rules (config : value) (key count_key : string)
  (summary : list (string * value)) : result exn (list (string * value)) :=
  spec <- py_getitem config "spec" ;;
  present <- py_contains key spec ;;
  if present
  then rules <- get_path config ["spec"; key] ;;
       n <- py_len rules ;;
       Ok (store count_key (VInt n) summary)
  else Ok summary.

Definition get_config_summary (self : NetworkPolicyConfigManager)
  (config : value) : result exn value :=
  name <- get_path config ["metadata"; "name"] ;;
  namespace <- get_path config ["metadata"; "namespace"] ;;
  app_label <- get_path config ["spec"; "podSelector"; "matchLabels"; "app"] ;;
  policy_types <- get_path config ["spec"; "policyTypes"] ;;
  spec <- py_getitem config "spec" ;;
  has_ingress_rules <- py_contains "ingress" spec ;;
  spec <- py_getitem config "spec" ;;
  has_egress_rules <- py_contains "egress" spec ;;
  let summary := [
    ("name", name);
    ("namespace", namespace);
    ("app_label", app_label);
    ("policy_types", policy_types);
    ("has_ingress_rules", VBool has_ingress_rules);
    ("has_egress_rules", VBool has_egress_rules)] in
  summary <- count_rules config "ingress" "ingress_rules_count" summary ;;
  summary <- count_rules config "egress" "egress_rules_count" summary ;;
  Ok (VDict summary).

End ConfigManager.

(** ** network_policies.py *)

Module Generator.

Record NetworkPolicyGenerator : Type := {
  policies : list value
}.

(** [__init__] *)
Definition init : NetworkPolicyGenerator := {| policies := [] |}.

(** [all(field in policy for field in required_fields)]: the generator
    stops at the first field that is absent. *)
Fixpoint all_fields_in (required_fields : list string) (policy : value)
  : result exn bool :=
  match required_fields with
  | [] => Ok true
  | field :: rest =>
      present <- py_contains field policy ;;
      if present then all_fields_in rest policy else Ok false
  end.

(** The loop over [spec['policyTypes']]: [Ok false] stands for the
    [return False] inside it, [Ok true] for falling through. *)
Fixpoint policy_types_loop (valid_types : list string)
  (policy_types : list value) : bool :=
  match policy_types with
  | [] => true
  | policy_type :: rest =>
      if invalid_type valid_types policy_type then false
      else policy_types_loop valid_types rest
  end.

(** The body of the [try] block of [validate_policy]. *)
Definition validate_policy_body (policy : value) : result exn bool :=
  let required_fields := ["apiVersion"; "kind"; "metadata"; "spec"] in
  all_present <- all_fields_in required_fields policy ;;
  if negb all_present then Ok false else
  (* Validate API version *)
  apiVersion <- py_getitem policy "apiVersion" ;;
  if negb (eq_str apiVersion "networking.k8s.io/v1") then Ok false else
  (* Validate kind *)
  kind <- py_getitem policy "kind" ;;
  if negb (eq_str kind "NetworkPolicy") then Ok false else
  (* Validate metadata *)
  metadata <- py_getitem policy "metadata" ;;
  name <- py_get metadata "name" ;;
  if negb (truthy name) then Ok false else
  (* Validate spec *)
  spec <- py_getitem policy "spec" ;;
  has_selector <- py_contains "podSelector" spec ;;
  if negb has_selector then Ok false else
  has_types <- py_contains "policyTypes" spec ;;
  if negb has_types then Ok false else
  (* Validate policy types *)
  let valid_types := ["Ingress"; "Egress"] in
  policy_types <- py_getitem spec "policyTypes" ;;
  items <- py_iter policy_types ;;
  if negb (policy_types_loop valid_types items) then Ok false else
  (* the debug line formats policy['metadata']['name'] *)
  logged <- get_path policy ["metadata"; "name"] ;;
  let _ := "Policy validation passed: " ++ py_str logged in
  Ok true.

(** Every exception of the model is an [Exception]; the handler of
    [validate_policy] logs it and returns [False]. *)
Definition validate_policy (self : NetworkPolicyGenerator) (policy : value)
  : result exn bool :=
  try_except (validate_policy_body policy) (fun e => Ok false).

(** The dict literal [create_isolation_policy] starts from. *)
Definition policy_literal (namespace app_label : string) : value :=
  VDict [
    ("apiVersion", VStr "networking.k8s.io/v1");
    ("kind", VStr "NetworkPolicy");
    ("metadata", VDict [
       ("name", VStr (app_label ++ "-isolation-policy"));
       ("namespace", VStr namespace);
       ("labels", VDict [("generated-by", VStr "sdn-tutorial");
                         ("app", VStr app_label)])]);
    ("spec", VDict [
       ("podSelector", VDict [("matchLabels", VDict [("app", VStr app_label)])]);
       ("policyTypes", VList [])])
  ].

(** [if rules is not None: policy['spec']['policyTypes'].append(type_name);
    policy['spec'][key] = rules] *)
Definition attach_rules (type_name key : string)
  (rules : option (list value)) (policy : value) : result exn value :=
  match rules with
  | Some rules =>
      policy <- update_in policy "spec"
                  (fun spec => update_in spec "policyTypes"
                     (fun policy_types => py_append policy_types (VStr type_name))) ;;
      update_in policy "spec"
        (fun spec => py_setitem spec key (VList rules))
  | None => Ok policy
  end.

(** The document [create_isolation_policy] has built when it reaches its
    validation step. *)
Definition build_policy (namespace app_label : string)
  (allowed_ingress allowed_egress : option (list value)) : result exn value :=
  let policy := policy_literal namespace app_label in
  policy <- attach_rules "Ingress" "ingress" allowed_ingress policy ;;
  policy <- attach_rules "Egress" "egress" allowed_egress policy ;;
  (* Default deny if no rules specified *)
  policy_types <- get_path policy ["spec"; "policyTypes"] ;;
  if negb (truthy policy_types)
  then update_in policy "spec"
         (fun spec => py_setitem spec "policyTypes"
                        (VList [VStr "Ingress"; VStr "Egress"]))
  else Ok policy.

(** [create_isolation_policy], over the validator it calls through [self].
    The first component of the result is the generator after the call. *)
Definition create_isolation_policy_with
  (validate : NetworkPolicyGenerator -> value -> result exn bool)
  (self : NetworkPolicyGenerator) (namespace app_label : string)
  (allowed_ingress allowed_egress : option (list value))
  : NetworkPolicyGenerator * result exn value :=
  match
    (policy <- build_policy namespace app_label allowed_ingress allowed_egress ;;
     (* Validate before adding *)
     valid <- validate self policy ;;
     if negb valid
     then Raise (ValueError
                   ("Generated policy for " ++ app_label ++ " failed validation"))
     else Ok policy)
  with
  | Raise e => (self, Raise e)
  | Ok policy =>
      let self := {| policies := policies self ++ [policy] |} in
      (self,
       (* the log line formats policy['metadata']['name'] *)
       logged <- get_path policy ["metadata"; "name"] ;;
       let _ := "Successfully created policy: " ++ py_str logged in
       Ok policy)
  end.

(** The method of the class: the validator is the class's own. *)
Definition create_isolation_policy :=
  create_isolation_policy_with validate_policy.

(** [ports or [80, 8080, 443]] *)
Definition ports_or_default (ports : option (list Z)) : list Z :=
  match ports with
  | Some (port :: rest) => port :: rest
  | _ => [80; 8080; 443]%Z
  end.

Definition service_selector (svc : string) : value :=
  VDict [("podSelector", VDict [("matchLabels", VDict [("app", VStr svc)])])].

Definition tcp_port (port : Z) : value :=
  VDict [("protocol", VStr "TCP"); ("port", VInt port)].

Definition create_microservice_policy (self : NetworkPolicyGenerator)
  (namespace service_name : string) (allowed_services : list string)
  (ports : option (list Z)) : NetworkPolicyGenerator * result exn value :=
  let ports := ports_or_default ports in
  let ingress_rules := [
    VDict [("from", VList (map service_selector allowed_services));
           ("ports", VList (map tcp_port ports))]] in
  (* Allow DNS egress *)
  let egress_rules := [
    VDict [("to", VList []);
           ("ports", VList [VDict [("protocol", VStr "UDP"); ("port", VInt 53)]])]] in
  create_isolation_policy self namespace service_name
    (Some ingress_rules) (Some egress_rules).

(** [[f(p) for p in policies]] *)
Fixpoint for_each (f : value -> result exn value) (policies : list value)
  : result exn (list value) :=
  match policies with
  | [] => Ok []
  | p :: rest => x <- f p ;; xs <- for_each f rest ;; Ok (x :: xs)
  end.

(** [set(f(p) for p in policies)], from the members so far. *)
Fixpoint set_of (f : value -> result exn value) (policies : list value)
  (members : list value) : result exn (list value) :=
  match policies with
  | [] => Ok members
  | p :: rest =>
      x <- f p ;;
      members <- set_add members x ;;
      set_of f rest members
  end.

(** [get_policy_summary].  The two sets are listed in the order their
    members were first met; Python does not specify the order. *)
Definition get_policy_summary (self : NetworkPolicyGenerator)
  : result exn value :=
  let total_policies := VInt (Z.of_nat (List.length (policies self))) in
  policy_names <-
    for_each (fun p => get_path p ["metadata"; "name"]) (policies self) ;;
  namespaces <-
    set_of (fun p => get_path p ["metadata"; "namespace"]) (policies self) [] ;;
  apps <-
    set_of (fun p => labels <- get_path p ["metadata"; "labels"] ;;
                     py_get_default labels "app" (VStr "unknown"))
      (policies self) [] ;;
  Ok (VDict [("total_policies", total_policies);
             ("policy_names", VList policy_names);
             ("namespaces", VList namespaces);
             ("apps", VList apps)]).

End Generator.

(** ** step4_yaml_validation.py *)

Module Step4.

Record ConfigValidator : Type := {
  required_fields : list string;
  valid_api_versions : list string;
  valid_kinds : list string;
  valid_policy_types : list string
}.

(** [__init__] *)
Definition init : ConfigValidator := {|
  required_fields := ["apiVersion"; "kind"; "metadata"; "spec"];
  valid_api_versions := ["networking.k8s.io/v1"; "networking.k8s.io/v1beta1"];
  valid_kinds := ["NetworkPolicy"];
  valid_policy_types := ["Ingress"; "Egress"]
|}.

Definition validate_spec (self : ConfigValidator) (config : value)
  : result exn bool :=
  spec <- py_get_default config "spec" (VDict []) ;;
  if negb (is_dict spec)
  then Raise (ConfigValidationError "spec must be a dictionary") else
  (* Validate podSelector *)
  has_selector <- py_contains "podSelector" spec ;;
  if negb has_selector
  then Raise (ConfigValidationError "spec.podSelector is required") else
  pod_selector <- py_getitem spec "podSelector" ;;
  if negb (is_dict pod_selector)
  then Raise (ConfigValidationError "spec.podSelector must be a dictionary") else
  (* Validate policyTypes if present *)
  has_types <- py_contains "policyTypes" spec ;;
  (if has_types
   then policy_types <- py_getitem spec "policyTypes" ;;
        match policy_types with
        | VList items =>
            let invalid_types :=
              filter (invalid_type (valid_policy_types self)) items in
            if truthy (VList invalid_types)
            then Raise (ConfigValidationError
                          ("Invalid policyTypes: " ++ py_str (VList invalid_types)))
            else Ok tt
        | _ => Raise (ConfigValidationError "spec.policyTypes must be a list")
        end
   else Ok tt) ;;;
  Ok true.

Definition validate_basic_structure (self : ConfigValidator) (config : value)
  : result exn bool :=
  match config with
  | VDict entries =>
      let missing_fields :=
        filter (fun field => negb (has_key field entries)) (required_fields self) in
      if truthy (VList (map VStr missing_fields))
      then Raise (ConfigValidationError
                    ("Missing required fields: "
                       ++ py_str (VList (map VStr missing_fields))))
      else Ok true
  | _ => Raise (ConfigValidationError "Configuration must be a dictionary")
  end.

Definition validate_api_version (self : ConfigValidator) (config : value)
  : result exn bool :=
  api_version <- py_get config "apiVersion" ;;
  if invalid_type (valid_api_versions self) api_version
  then Raise (ConfigValidationError
                ("Invalid apiVersion '" ++ py_str api_version
                   ++ "'. Must be one of: "
                   ++ py_str (VList (map VStr (valid_api_versions self)))))
  else Ok true.

Definition validate_kind (self : ConfigValidator) (config : value)
  : result exn bool :=
  kind <- py_get config "kind" ;;
  if invalid_type (valid_kinds self) kind
  then Raise (ConfigValidationError
                ("Invalid kind '" ++ py_str kind
                   ++ "'. Must be one of: "
                   ++ py_str (VList (map VStr (valid_kinds self)))))
  else Ok true.

(** [c.isspace()] for a code point below 256. *)
Definition is_space (c : ascii) : bool :=
  let n := N_of_ascii c in
  (N.leb 9 n && N.leb n 13) || (N.leb 28 n && N.leb n 32)
  || N.eqb n 133 || N.eqb n 160.

(** [c.isalnum()] for a code point below 256: the ASCII letters and digits,
    the Latin-1 letters, the superscript digits and the vulgar fractions. *)
Definition is_alnum (c : ascii) : bool :=
  let n := N_of_ascii c in
  (N.leb 48 n && N.leb n 57) || (N.leb 65 n && N.leb n 90)
  || (N.leb 97 n && N.leb n 122)
  || N.eqb n 170 || N.eqb n 178 || N.eqb n 179 || N.eqb n 181
  || N.eqb n 185 || N.eqb n 186 || (N.leb 188 n && N.leb n 190)
  || (N.leb 192 n && N.leb n 214) || (N.leb 216 n && N.leb n 246)
  || N.leb 248 n.

Fixpoint lstrip (s : string) : string :=
  match s with
  | EmptyString => EmptyString
  | String c s' => if is_space c then lstrip s' else s
  end.

Fixpoint rstrip (s : string) : string :=
  match s with
  | EmptyString => EmptyString
  | String c s' =>
      match rstrip s' with
      | EmptyString => if is_space c then EmptyString else String c EmptyString
      | r => String c r
      end
  end.

(** [s.strip()] *)
Definition strip (s : string) : string := rstrip (lstrip s).

(** [all(c.isalnum() or c in '-.' for c in name)] *)
Fixpoint all_name_chars (name : string) : bool :=
  match name with
  | EmptyString => true
  | String c rest =>
      (is_alnum c || is_substring (String c EmptyString) "-.")
      && all_name_chars rest
  end.

(** [s.endswith(t)] *)
Fixpoint endswith (s t : string) : bool :=
  String.eqb s t ||
  match s with
  | EmptyString => false
  | String _ s' => endswith s' t
  end.

Definition validate_metadata (self : ConfigValidator) (config : value)
  : result exn bool :=
  metadata <- py_get_default config "metadata" (VDict []) ;;
  match metadata with
  | VDict entries =>
      match lookup "name" entries with
      | None => Raise (ConfigValidationError "metadata.name is required")
      | Some (VStr name) =>
          if negb (truthy (VStr (strip name)))
          then Raise (ConfigValidationError
                        "metadata.name must be a non-empty string")
          else
          (* Validate Kubernetes naming conventions *)
          if negb (all_name_chars name)
          then Raise (ConfigValidationError
                        "metadata.name contains invalid characters")
          else
          if is_prefix "-" name || endswith name "-"
          then Raise (ConfigValidationError
                        "metadata.name cannot start or end with '-'")
          else Ok true
      | Some _ =>
          Raise (ConfigValidationError
                   "metadata.name must be a non-empty string")
      end
  | _ => Raise (ConfigValidationError "metadata must be a dictionary")
  end.

End Step4.

(** ** step6_integration.py *)

Module Step6.

(** The workflow object, without its [base_directory], which the methods
    modelled here do not read. *)
Record NetworkPolicyWorkflow : Type := {
  manager : ConfigManager.NetworkPolicyConfigManager;
  processed_policies : list value;
  validation_errors : list (value * string);
  operation_log : list string
}.

(** [__init__] *)
Definition init : NetworkPolicyWorkflow := {|
  manager := ConfigManager.init;
  processed_policies := [];
  validation_errors := [];
  operation_log := []
|}.

Definition port (protocol : string) (number : Z) : value :=
  VDict [("protocol", VStr protocol); ("port", VInt number)].

Definition pods (app : string) : value :=
  VDict [("podSelector", VDict [("matchLabels", VDict [("app", VStr app)])])].

(** The [templates] literal of [create_policy_from_template]. *)
Definition templates : value :=
  VDict [
    ("web-frontend", VDict [
       ("policyTypes", VList [VStr "Ingress"]);
       ("ingress_rules", VList [
          VDict [("from_selectors", VList [VDict []]);
                 ("ports", VList [port "TCP" 80; port "TCP" 443])]])]);
    ("api-service", VDict [
       ("policyTypes", VList [VStr "Ingress"; VStr "Egress"]);
       ("ingress_rules", VList [
          VDict [("from_selectors", VList [pods "frontend"]);
                 ("ports", VList [port "TCP" 8080])]]);
       ("egress_rules", VList [
          VDict [("to_selectors", VList [pods "database"]);
                 ("ports", VList [port "TCP" 5432])]])]);
    ("database", VDict [
       ("policyTypes", VList [VStr "Ingress"]);
       ("ingress_rules", VList [
          VDict [("from_selectors", VList [pods "api"]);
                 ("ports", VList [port "TCP" 5432])]])])
  ].

(** The loop over [template['ingress_rules']]; [policy] is local to the
    method, so what a raising call leaves of it is not observed. *)
Fixpoint ingress_rules_loop (self : NetworkPolicyWorkflow)
  (rules : list value) (policy : value) : result exn value :=
  match rules with
  | [] => Ok policy
  | rule :: rest =>
      from_selectors <- py_getitem rule "from_selectors" ;;
      ports <- py_get rule "ports" ;;
      policy <- snd (ConfigManager.add_ingress_rule (manager self) policy
                       from_selectors ports) ;;
      ingress_rules_loop self rest policy
  end.

(** The loop over [template['egress_rules']]. *)
Fixpoint egress_rules_loop (rules : list value) (policy : value)
  : result exn value :=
  match rules with
  | [] => Ok policy
  | rule :: rest =>
      to_selectors <- py_getitem rule "to_selectors" ;;
      let egress_rule := [("to", to_selectors)] in
      has_ports <- py_contains "ports" rule ;;
      egress_rule <-
        (if has_ports
         then ports <- py_getitem rule "ports" ;;
              Ok (store "ports" ports egress_rule)
         else Ok egress_rule) ;;
      policy <- update_in policy "spec"
                  (fun spec => update_in spec "egress"
                     (fun egress => py_append egress (VDict egress_rule))) ;;
      egress_rules_loop rest policy
  end.

Definition create_policy_from_template (self : NetworkPolicyWorkflow)
  (template_name policy_name namespace app_label : string)
  : NetworkPolicyWorkflow * result exn value :=
  match py_contains template_name templates with
  | Raise e => (self, Raise e)
  | Ok false =>
      (self, Raise (ValueError ("Unknown template: " ++ template_name)))
  | Ok true =>
      let self := {|
        manager := manager self;
        processed_policies := processed_policies self;
        validation_errors := validation_errors self;
        operation_log :=
          operation_log self
            ++ ["Creating policy " ++ policy_name ++ " from template "
                  ++ template_name]
      |} in
      (self,
       (* Generate base policy *)
       let policy :=
         ConfigManager.generate_basic_policy (manager self)
           policy_name namespace app_label in
       template <- py_getitem templates template_name ;;
       (* Apply template modifications *)
       policy_types <- py_getitem template "policyTypes" ;;
       policy <- update_in policy "spec"
                   (fun spec => py_setitem spec "policyTypes" policy_types) ;;
       (* Add ingress rules if specified *)
       has_ingress <- py_contains "ingress_rules" template ;;
       policy <-
         (if has_ingress
          then rules <- py_getitem template "ingress_rules" ;;
               rules <- py_iter rules ;;
               ingress_rules_loop self rules policy
          else Ok policy) ;;
       (* Add egress rules if specified *)
       has_egress <- py_contains "egress_rules" template ;;
       (if has_egress
        then spec <- py_getitem policy "spec" ;;
             has <- py_contains "egress" spec ;;
             policy <-
               (if negb has
                then update_in policy "spec"
                       (fun spec => py_setitem spec "egress" (VList []))
                else Ok policy) ;;
             rules <- py_getitem template "egress_rules" ;;
             rules <- py_iter rules ;;
             egress_rules_loop rules policy
        else Ok policy))
  end.

(** [policy.get('metadata', {}).get('name', 'unknown')] *)
Definition name_or_unknown (policy : value) : result exn value :=
  metadata <- py_get_default policy "metadata" (VDict []) ;;
  py_get_default metadata "name" (VStr "unknown").

(** [validate_and_process_policy]: the answer is [True], [False] or (past
    the [if], were the validation to return a false value) [None]. *)
Definition validate_and_process_policy (self : NetworkPolicyWorkflow)
  (policy : value) : NetworkPolicyWorkflow * result exn value :=
  match ConfigManager.validate_network_policy (manager self) policy with
  | Ok true =>
      let self := {|
        manager := manager self;
        processed_policies := processed_policies self ++ [policy];
        validation_errors := validation_errors self;
        operation_log := operation_log self
      |} in
      match get_path policy ["metadata"; "name"] with
      | Ok name =>
          ({| manager := manager self;
              processed_policies := processed_policies self;
              validation_errors := validation_errors self;
              operation_log :=
                operation_log self
                  ++ ["Validated and processed policy: " ++ py_str name] |},
           Ok (VBool true))
      | Raise e => (self, Raise e)
      end
  | Ok false => (self, Ok VNone)
  | Raise (ConfigValidationError msg) =>
      match name_or_unknown policy with
      | Ok name =>
          ({| manager := manager self;
              processed_policies := processed_policies self;
              validation_errors := validation_errors self ++ [(name, msg)];
              operation_log :=
                operation_log self ++ ["Validation failed for policy: " ++ msg] |},
           Ok (VBool false))
      | Raise e => (self, Raise e)
      end
  | Raise e => (self, Raise e)
  end.

End Step6.

(** ** Vocabulary of the statements *)


(** The rules under [spec.ingress], none when the key is absent. *)
Definition ingress_of (spec : list (string * value)) : list value :=
  match lookup "ingress" spec with
  | Some (VList rules) => rules
  | _ => []
  end.

(** [spec.ingress] is absent, or is a list. *)
Definition ingress_absent_or_list (spec : list (string * value)) : Prop :=
  lookup "ingress" spec = None \/
  exists rules, lookup "ingress" spec = Some (VList rules).


(** The document [entries], whose [spec] is [spec], once [rule] is the last
    rule under [spec.ingress]. *)
Definition with_rule (entries spec : list (string * value)) (rule : value)
  : value :=
  VDict (store "spec"
           (VDict (store "ingress" (VList (ingress_of spec ++ [rule])) spec))
           entries).

(** The first five checks of the manager's validation pass on the document
    [entries]: the four top-level keys are there, [apiVersion] and [kind]
    are the expected literals, [metadata] is a mapping with a [name] and
    [spec] a mapping with a [podSelector]. *)
Definition passes_structure (entries metadata spec : list (string * value))
  : Prop :=
  lookup "apiVersion" entries = Some (VStr "networking.k8s.io/v1") /\
  lookup "kind" entries = Some (VStr "NetworkPolicy") /\
  lookup "metadata" entries = Some (VDict metadata) /\
  has_key "name" metadata = true /\
  lookup "spec" entries = Some (VDict spec) /\
  has_key "podSelector" spec = true.

(** *** Sample inputs *)

Definition sample_metadata : list (string * value) :=
  [("name", VStr "test-policy"); ("namespace", VStr "production")].

Definition sample_selector : value :=
  VDict [("matchLabels", VDict [("app", VStr "web")])].

(** A document like the [valid_config] fixture of the tests, with the given
    entries after [podSelector] in its [spec]. *)
Definition sample_spec (more : list (string * value)) : list (string * value) :=
  ("podSelector", sample_selector) :: more.

Definition sample_entries (more : list (string * value))
  : list (string * value) :=
  [("apiVersion", VStr "networking.k8s.io/v1");
   ("kind", VStr "NetworkPolicy");
   ("metadata", VDict sample_metadata);
   ("spec", VDict (sample_spec more))].

Definition frontend_selectors : list value :=
  [VDict [("podSelector", VDict [("matchLabels", VDict [("app", VStr "frontend")])])]].

Definition tcp_8080 : list value :=
  [VDict [("protocol", VStr "TCP"); ("port", VInt 8080)]].

(** A file system with no file, and a parser for which every text is an
    empty document. *)
Definition no_files (path : string) : result ConfigManager.load_exn string :=
  Raise ConfigManager.FileNotFoundError.

Definition parse_empty (text : string) : result ConfigManager.load_exn value :=
  Ok VNone.

(** A file system where every path holds the text ["{"], and a parser that
    accepts nothing but the empty text, which is the empty document. *)
Definition brace_files (path : string) : result ConfigManager.load_exn string :=
  Ok "{".

Definition parse_strict (text : string) : result ConfigManager.load_exn value :=
  match text with
  | EmptyString => Ok VNone
  | _ => Raise (ConfigManager.YAMLError "while parsing a flow mapping")
  end.

Definition empty_files (path : string) : result ConfigManager.load_exn string :=
  Ok EmptyString.

(** A validator that rejects every document. *)
Definition validate_never (self : Generator.NetworkPolicyGenerator)
  (policy : value) : result exn bool :=
  Ok false.

(** *** Sequences of calls on a generator *)

(** One call of a policy-creating method of the generator. *)
Inductive request : Type :=
| Isolation (namespace app_label : string)
    (allowed_ingress allowed_egress : option (list value))
| Microservice (namespace service_name : string)
    (allowed_services : list string) (ports : option (list Z)).

Definition request_namespace (r : request) : string :=
  match r with
  | Isolation namespace _ _ _ => namespace
  | Microservice namespace _ _ _ => namespace
  end.

Definition request_app (r : request) : string :=
  match r with
  | Isolation _ app_label _ _ => app_label
  | Microservice _ service_name _ _ => service_name
  end.

Definition run_request (self : Generator.NetworkPolicyGenerator) (r : request)
  : Generator.NetworkPolicyGenerator * result exn value :=
  match r with
  | Isolation namespace app_label allowed_ingress allowed_egress =>
      Generator.create_isolation_policy self namespace app_label
        allowed_ingress allowed_egress
  | Microservice namespace service_name allowed_services ports =>
      Generator.create_microservice_policy self namespace service_name
        allowed_services ports
  end.

(** The generator after the calls were made one after the other. *)
Fixpoint run_all (self : Generator.NetworkPolicyGenerator)
  (requests : list request) : Generator.NetworkPolicyGenerator :=
  match requests with
  | [] => self
  | r :: rest => run_all (fst (run_request self r)) rest
  end.

(** The string an expression gives on a stored policy. *)
Definition string_of (f : value -> result exn value) (p : value) : string :=
  match f p with
  | Ok (VStr s) => s
  | _ => EmptyString
  end.

(** *** Names *)

(** A character [validate_metadata] lets into a name. *)
Definition name_char (c : ascii) : bool :=
  Step4.is_alnum c || Ascii.eqb c "-" || Ascii.eqb c ".".

Fixpoint last_char (s : string) : option ascii :=
  match s with
  | EmptyString => None
  | String c EmptyString => Some c
  | String _ s' => last_char s'
  end.

Definition first_char (s : string) : option ascii :=
  match s with
  | EmptyString => None
  | String c _ => Some c
  end.

(** *** The workflow *)

(** The workflow after [create_policy_from_template] has logged its call. *)
Definition logged (self : Step6.NetworkPolicyWorkflow)
  (template_name policy_name : string) : Step6.NetworkPolicyWorkflow := {|
  Step6.manager := Step6.manager self;
  Step6.processed_policies := Step6.processed_policies self;
  Step6.validation_errors := Step6.validation_errors self;
  Step6.operation_log :=
    Step6.operation_log self
      ++ ["Creating policy " ++ policy_name ++ " from template " ++ template_name]
|}.

(** ** Dictionaries *)

Lemma lookup_store_eq k x entries : lookup k (store k x entries) = Some x.
Proof.
  induction entries as [|[k' y] rest IH]; simpl.
  - now rewrite String.eqb_refl.
  - destruct (String.eqb k k') eqn:E; simpl; rewrite E; auto.
Qed.

Lemma lookup_store_neq k k' x entries :
  k <> k' -> lookup k (store k' x entries) = lookup k entries.
Proof.
  intros Hne.
  induction entries as [|[k0 y] rest IH]; simpl.
  - apply String.eqb_neq in Hne. now rewrite Hne.
  - destruct (String.eqb k' k0) eqn:E; simpl.
    + apply String.eqb_eq in E; subst k0.
      apply String.eqb_neq in Hne. now rewrite Hne.
    + now rewrite IH.
Qed.

Lemma store_store k x y entries :
  store k y (store k x entries) = store k y entries.
Proof.
  induction entries as [|[k' z] rest IH]; simpl.
  - now rewrite String.eqb_refl.
  - destruct (String.eqb k k') eqn:E; simpl; rewrite E; congruence.
Qed.

Lemma update_in_dict entries k f x x' :
  lookup k entries = Some x -> f x = Ok x' ->
  update_in (VDict entries) k f = Ok (VDict (store k x' entries)).
Proof.
  intros Hl Hf. unfold update_in; simpl. now rewrite Hl; simpl; rewrite Hf.
Qed.

Lemma get_path_cons entries k x path :
  lookup k entries = Some x ->
  get_path (VDict entries) (k :: path) = get_path x path.
Proof. intros Hl. simpl. now rewrite Hl. Qed.

(** ** Substrings *)

Lemma is_substring_unfold p s :
  is_substring p s =
  is_prefix p s || match s with
                   | EmptyString => false
                   | String _ s' => is_substring p s'
                   end.
Proof. now destruct s. Qed.

Lemma is_prefix_refl p : is_prefix p p = true.
Proof.
  induction p as [|a p IH]; simpl; [reflexivity|].
  now rewrite Ascii.eqb_refl, IH.
Qed.

Lemma is_substring_refl p : is_substring p p = true.
Proof. now rewrite is_substring_unfold, is_prefix_refl. Qed.

Lemma is_substring_skip a p s :
  is_substring p s = true -> is_substring p (a ++ s) = true.
Proof.
  intros H. induction a as [|c a IH]; simpl append; [exact H|].
  rewrite is_substring_unfold, IH. apply orb_true_r.
Qed.

(** ** The manager *)

Module ManagerFacts.
Import ConfigManager.

(** C1.  For every name, namespace and app label, the document
    [generate_basic_policy] returns passes [validate_network_policy], holds
    the name under [metadata.name], the namespace under
    [metadata.namespace], the label under
    [spec.podSelector.matchLabels.app], and its [spec.policyTypes] is the
    list [["Ingress", "Egress"]], in that order. *)
Theorem generate_basic_policy_valid (name namespace app_label : string) :
  let d := generate_basic_policy init name namespace app_label in
  validate_network_policy init d = Ok true /\
  get_path d ["metadata"; "name"] = Ok (VStr name) /\
  get_path d ["metadata"; "namespace"] = Ok (VStr namespace) /\
  get_path d ["spec"; "podSelector"; "matchLabels"; "app"] = Ok (VStr app_label) /\
  get_path d ["spec"; "policyTypes"] = Ok (VList [VStr "Ingress"; VStr "Egress"]).
Proof. repeat split; reflexivity. Qed.

(** The scenarios of [tests/test_config_manager.py]. *)

Example test_validate_network_policy_missing_fields :
  validate_network_policy init
    (VDict [("apiVersion", VStr "networking.k8s.io/v1");
            ("kind", VStr "NetworkPolicy")]) =
  Raise (ConfigValidationError "Missing required fields: ['metadata', 'spec']").
Proof. reflexivity. Qed.

Example test_validate_network_policy_wrong_api_version :
  validate_network_policy init
    (VDict (store "apiVersion" (VStr "apps/v1")
              (sample_entries [("policyTypes", VList [VStr "Ingress"])]))) =
  Raise (ConfigValidationError
           "Invalid apiVersion: apps/v1, expected: networking.k8s.io/v1").
Proof. reflexivity. Qed.

Example test_validate_network_policy_missing_metadata_name :
  validate_network_policy init
    (VDict (store "metadata" (VDict [("namespace", VStr "production")])
              (sample_entries [("policyTypes", VList [VStr "Ingress"])]))) =
  Raise (ConfigValidationError "Missing metadata.name").
Proof. reflexivity. Qed.

Example test_validate_network_policy_invalid_policy_type :
  validate_network_policy init
    (VDict (sample_entries [("policyTypes", VList [VStr "InvalidType"])])) =
  Raise (ConfigValidationError "Invalid policyType: InvalidType").
Proof. reflexivity. Qed.

Example test_add_ingress_rule_existing_rules :
  let existing := VDict [("from", VList [])] in
  let d := VDict (sample_entries [("policyTypes", VList [VStr "Ingress"]);
                                  ("ingress", VList [existing])]) in
  exists config',
    add_ingress_rule init d (VList frontend_selectors) VNone = (config', Ok config') /\
    get_path config' ["spec"; "ingress"] =
      Ok (VList [existing; VDict [("from", VList frontend_selectors)]]) /\
    get_path config' ["spec"; "policyTypes"] = Ok (VList [VStr "Ingress"]).
Proof. eexists. repeat split. Qed.

(** *** Adding an ingress rule *)

Section AddIngressRule.

Variables (entries spec : list (string * value)).
Variables (from_selectors ports : value).
Hypothesis Hspec : lookup "spec" entries = Some (VDict spec).
Hypothesis Hingress : ingress_absent_or_list spec.

Local Abbreviation rule := (ingress_rule from_selectors ports).
Local Abbreviation after := (with_rule entries spec rule).

Lemma add_ingress_rule_appends :
  add_ingress_rule init (VDict entries) from_selectors ports =
  stmt after
    (fun config =>
       policy_types <- get_path config ["spec"; "policyTypes"] ;;
       has_type <- py_contains "Ingress" policy_types ;;
       if negb has_type
       then update_in config "spec"
              (fun spec => update_in spec "policyTypes"
                 (fun policy_types => py_append policy_types (VStr "Ingress")))
       else Ok config)
    (fun config => (config, Ok config)).
Proof.
  unfold add_ingress_rule.
  unfold stmt at 1. simpl py_getitem. rewrite Hspec. simpl bind.
  unfold has_key.
  destruct Hingress as [Hn | [rules Hl]].
  - rewrite Hn. simpl negb. cbv iota.
    erewrite update_in_dict; [|eassumption|reflexivity].
    unfold stmt at 1.
    erewrite update_in_dict;
      [|apply lookup_store_eq
       |erewrite update_in_dict; [reflexivity|apply lookup_store_eq|reflexivity]].
    rewrite !store_store. unfold with_rule, ingress_of. rewrite Hn.
    reflexivity.
  - rewrite Hl. simpl negb. cbv iota.
    unfold stmt at 1.
    erewrite update_in_dict;
      [|eassumption
       |erewrite update_in_dict; [reflexivity|eassumption|reflexivity]].
    unfold with_rule, ingress_of. rewrite Hl. reflexivity.
Qed.

Lemma with_rule_spec :
  py_getitem after "spec" =
  Ok (VDict (store "ingress" (VList (ingress_of spec ++ [rule])) spec)).
Proof. unfold with_rule; simpl. now rewrite lookup_store_eq. Qed.


Lemma with_rule_policy_types :
  get_path after ["spec"; "policyTypes"] =
  match lookup "policyTypes" spec with
  | Some x => Ok x
  | None => Raise (KeyError "policyTypes")
  end.
Proof.
  unfold get_path. rewrite with_rule_spec. simpl.
  rewrite lookup_store_neq by discriminate.
  now destruct (lookup "policyTypes" spec).
Qed.



End AddIngressRule.





(** *** Validation *)

Lemma policy_types_loop_find valid policy_types :
  policy_types_loop valid policy_types =
  match find (invalid_type valid) policy_types with
  | Some x => Raise (ConfigValidationError ("Invalid policyType: " ++ py_str x))
  | None => Ok tt
  end.
Proof.
  induction policy_types as [|x rest IH]; simpl; [reflexivity|].
  now destruct (invalid_type valid x).
Qed.

Lemma has_key_lookup k entries :
  has_key k entries = true -> exists x, lookup k entries = Some x.
Proof.
  unfold has_key. destruct (lookup k entries) as [x|]; [eauto|discriminate].
Qed.

(** Past its first five checks, the manager's validation is the check of
    [spec.policyTypes]. *)
Lemma validate_after_structure entries metadata spec :
  passes_structure entries metadata spec ->
  validate_network_policy init (VDict entries) =
  match lookup "policyTypes" spec with
  | Some policy_types =>
      items <- py_iter policy_types ;;
      policy_types_loop ["Ingress"; "Egress"] items ;;;
      Ok true
  | None => Ok true
  end.
Proof.
  intros (Hapi & Hkind & Hmeta & Hname & Hspec & Hsel).
  destruct (has_key_lookup _ _ Hname) as [name Hn].
  unfold validate_network_policy; simpl.
  unfold has_key. rewrite Hapi, Hkind, Hmeta, Hspec. simpl.
  unfold has_key in Hname, Hsel |- *. rewrite Hn.
  destruct (lookup "podSelector" spec); [|discriminate]. simpl.
  destruct (lookup "policyTypes" spec) as [policy_types|]; simpl; [|reflexivity].
  destruct (py_iter policy_types) as [items|e]; simpl; [|reflexivity].
  now destruct (policy_types_loop ["Ingress"; "Egress"] items).
Qed.

(** C4, as the code has it.  On a document that passes the first five
    checks and whose [spec.policyTypes] is a list with an element outside
    ["Ingress"], ["Egress"]: the manager's validation raises
    [ConfigValidationError] with the message [Invalid policyType: x] for the
    first such element [x] only, and [ConfigValidator.validate_spec] (given
    a mapping as [podSelector]) raises it with [Invalid policyTypes:]
    followed by the list of all such elements. *)
Theorem invalid_policy_types_reported
  (entries metadata spec : list (string * value))
  (policy_types : list value) (first : value) :
  passes_structure entries metadata spec ->
  lookup "policyTypes" spec = Some (VList policy_types) ->
  find (invalid_type ["Ingress"; "Egress"]) policy_types = Some first ->
  validate_network_policy init (VDict entries) =
    Raise (ConfigValidationError ("Invalid policyType: " ++ py_str first)) /\
  (forall selector,
     lookup "podSelector" spec = Some (VDict selector) ->
     Step4.validate_spec Step4.init (VDict entries) =
       Raise (ConfigValidationError
                ("Invalid policyTypes: "
                   ++ py_str (VList (filter (invalid_type ["Ingress"; "Egress"])
                                       policy_types))))).
Proof.
  intros Hst Htypes Hfind. split.
  - rewrite (validate_after_structure _ _ _ Hst), Htypes. simpl.
    now rewrite policy_types_loop_find, Hfind.
  - intros selector Hsel.
    destruct Hst as (_ & _ & _ & _ & Hspec & _).
    unfold Step4.validate_spec; simpl. rewrite Hspec; simpl.
    unfold has_key. rewrite Hsel, Htypes; simpl.
    destruct (filter (invalid_type ["Ingress"; "Egress"]) policy_types)
      as [|y l] eqn:Hf; [|reflexivity].
    apply find_some in Hfind. destruct Hfind as [Hin Hinv].
    assert (Hx : In first (filter (invalid_type ["Ingress"; "Egress"]) policy_types))
      by (apply filter_In; auto).
    rewrite Hf in Hx. destruct Hx.
Qed.

(** The statement above at a sample document with two unknown types. *)
Lemma invalid_policy_types_reported_witness :
  let d := VDict (sample_entries
                    [("policyTypes",
                      VList [VStr "Ingress"; VStr "Bogus"; VStr "Other"])]) in
  validate_network_policy init d =
    Raise (ConfigValidationError "Invalid policyType: Bogus") /\
  Step4.validate_spec Step4.init d =
    Raise (ConfigValidationError "Invalid policyTypes: ['Bogus', 'Other']").
Proof.
  destruct (invalid_policy_types_reported
              (sample_entries [("policyTypes",
                                VList [VStr "Ingress"; VStr "Bogus"; VStr "Other"])])
              sample_metadata
              (sample_spec [("policyTypes",
                             VList [VStr "Ingress"; VStr "Bogus"; VStr "Other"])])
              [VStr "Ingress"; VStr "Bogus"; VStr "Other"] (VStr "Bogus"))
    as [Hm Hs].
  - repeat split.
  - reflexivity.
  - reflexivity.
  - split; [exact Hm|]. eapply Hs. reflexivity.
Defined.

(** C4 as stated fails on the manager: with two unknown types the message
    names the first and not the second. *)
Lemma invalid_policy_types_first_only :
  let d := VDict (sample_entries
                    [("policyTypes", VList [VStr "Bogus"; VStr "Other"])]) in
  validate_network_policy init d =
    Raise (ConfigValidationError "Invalid policyType: Bogus") /\
  is_substring "Other" "Invalid policyType: Bogus" = false.
Proof. split; reflexivity. Qed.

(** C7.  Validation of the empty document fails with a
    [ConfigValidationError] whose message names each of the four required
    top-level keys: [apiVersion], [kind], [metadata] and [spec]. *)
Theorem validate_empty_document :
  exists msg,
    validate_network_policy init (VDict []) = Raise (ConfigValidationError msg) /\
    msg = "Missing required fields: ['apiVersion', 'kind', 'metadata', 'spec']" /\
    is_substring "apiVersion" msg = true /\
    is_substring "kind" msg = true /\
    is_substring "metadata" msg = true /\
    is_substring "spec" msg = true /\
    forall field,
      In field (required_fields (validation_rules init)) ->
      is_substring field msg = true.
Proof.
  eexists. split; [reflexivity|]. split; [reflexivity|].
  repeat (split; [reflexivity|]).
  simpl. intros field [<-|[<-|[<-|[<-|[]]]]]; reflexivity.
Qed.

(** *** Loading *)

(** What the loader raises on a text that parses to [None]. *)
Lemma load_config_from_file_none
  (open_read : string -> result load_exn string)
  (safe_load : string -> result load_exn value) (file_path text : string) :
  open_read file_path = Ok text ->
  safe_load text = Ok VNone ->
  load_config_from_file open_read safe_load init file_path =
    Raise (ConfigValidationError
             ("Error loading " ++ file_path ++ ": "
                ++ "Empty configuration file: " ++ file_path)).
Proof.
  intros Ho Hp. unfold load_config_from_file. rewrite Ho; simpl.
  now rewrite Hp.
Qed.

(** C8, as the code has it.  [load_config_from_file] raises
    [ConfigValidationError] in three cases that can be told apart: with the
    message [Configuration file not found: <path>] when the path does not
    exist; with [Invalid YAML in <path>: <parser message>] when the parser
    fails; and, when the text parses to [None] (as the empty text of a
    zero-byte file does), with a message that contains
    [Empty configuration file: <path>] and is neither of the other two. *)
Theorem load_config_from_file_errors
  (open_read : string -> result load_exn string)
  (safe_load : string -> result load_exn value) (file_path : string) :
  (open_read file_path = Raise FileNotFoundError ->
   load_config_from_file open_read safe_load init file_path =
     Raise (ConfigValidationError
              ("Configuration file not found: " ++ file_path))) /\
  (forall text msg,
     open_read file_path = Ok text ->
     safe_load text = Raise (YAMLError msg) ->
     load_config_from_file open_read safe_load init file_path =
       Raise (ConfigValidationError
                ("Invalid YAML in " ++ file_path ++ ": " ++ msg))) /\
  (forall text,
     open_read file_path = Ok text ->
     safe_load text = Ok VNone ->
     exists msg,
       load_config_from_file open_read safe_load init file_path =
         Raise (ConfigValidationError msg) /\
       is_substring ("Empty configuration file: " ++ file_path) msg = true /\
       is_prefix "Invalid YAML in " msg = false /\
       is_prefix "Configuration file not found: " msg = false) /\
  (forall msg,
     "Configuration file not found: " ++ file_path
       <> "Invalid YAML in " ++ file_path ++ ": " ++ msg).
Proof.
  split; [intros Ho; unfold load_config_from_file; now rewrite Ho|].
  split; [intros text msg Ho Hp; unfold load_config_from_file;
          rewrite Ho; simpl; now rewrite Hp|].
  split; [|intros msg; simpl; discriminate].
  intros text Ho Hp. eexists.
  split; [apply (load_config_from_file_none _ _ _ _ Ho Hp)|].
  split; [|split; reflexivity].
  apply (is_substring_skip "Error loading "), is_substring_skip,
    (is_substring_skip ": "), is_substring_refl.
Qed.

(** The three cases at concrete collaborators: no file at all; a file whose
    text the parser rejects; a zero-byte file, which parses to [None]. *)
Lemma load_config_from_file_errors_witness :
  load_config_from_file no_files parse_empty init "missing.yaml" =
    Raise (ConfigValidationError "Configuration file not found: missing.yaml") /\
  load_config_from_file brace_files parse_strict init "bad.yaml" =
    Raise (ConfigValidationError
             "Invalid YAML in bad.yaml: while parsing a flow mapping") /\
  exists msg,
    load_config_from_file empty_files parse_strict init "empty.yaml" =
      Raise (ConfigValidationError msg) /\
    is_substring "Empty configuration file: empty.yaml" msg = true.
Proof.
  split; [|split].
  - apply (load_config_from_file_errors no_files parse_empty "missing.yaml").
    reflexivity.
  - apply (proj1 (proj2 (load_config_from_file_errors
                           brace_files parse_strict "bad.yaml")) "{");
      reflexivity.
  - destruct (proj1 (proj2 (proj2 (load_config_from_file_errors
                                     empty_files parse_strict "empty.yaml")))
                EmptyString eq_refl eq_refl)
      as (msg & Hrun & Hsub & _).
    exists msg. split; [exact Hrun|exact Hsub].
Defined.

(** C8 as stated fails on the missing file: the message is not
    [<path> not found], and does not contain it. *)
Lemma load_config_from_file_not_found_message :
  exists msg,
    load_config_from_file no_files parse_empty init "missing.yaml" =
      Raise (ConfigValidationError msg) /\
    msg <> "missing.yaml" ++ " not found" /\
    is_substring ("missing.yaml" ++ " not found") msg = false.
Proof.
  eexists. split; [reflexivity|]. split; [discriminate|reflexivity].
Qed.

End ManagerFacts.

(** ** The generator *)

Module GeneratorFacts.
Import Generator.

(** The scenarios of [tests/test_network_automation.py]. *)

Example test_policy_validation :
  validate_policy init (VDict [("kind", VStr "Service")]) = Ok false.
Proof. reflexivity. Qed.

Example test_default_deny_policy :
  exists policy,
    create_isolation_policy init "secure-ns" "secure-app" None None
      = ({| policies := [policy] |}, Ok policy) /\
    get_path policy ["spec"; "policyTypes"]
      = Ok (VList [VStr "Ingress"; VStr "Egress"]) /\
    get_path policy ["spec"; "ingress"] = Raise (KeyError "ingress") /\
    get_path policy ["spec"; "egress"] = Raise (KeyError "egress").
Proof. eexists. repeat split. Qed.

(** The construction steps never raise. *)
Lemma build_policy_ok namespace app_label allowed_ingress allowed_egress :
  exists policy,
    build_policy namespace app_label allowed_ingress allowed_egress = Ok policy.
Proof.
  destruct allowed_ingress, allowed_egress; eexists; reflexivity.
Qed.

(** The class's own validator accepts what the construction steps build. *)
Lemma built_policy_valid self namespace app_label allowed_ingress allowed_egress policy :
  build_policy namespace app_label allowed_ingress allowed_egress = Ok policy ->
  validate_policy self policy = Ok true.
Proof.
  destruct allowed_ingress, allowed_egress, app_label;
    intros H; inversion H; subst; reflexivity.
Qed.

(** C5, as the code has it.  When the validator [create_isolation_policy]
    calls rejects the document it has built, the call raises [ValueError]
    with the message [Generated policy for <app_label> failed validation]
    and leaves the store as it was. *)
Theorem create_isolation_policy_rejected
  (validate : NetworkPolicyGenerator -> value -> result exn bool)
  (self : NetworkPolicyGenerator) (namespace app_label : string)
  (allowed_ingress allowed_egress : option (list value)) :
  (forall policy,
     build_policy namespace app_label allowed_ingress allowed_egress = Ok policy ->
     validate self policy = Ok false) ->
  create_isolation_policy_with validate self namespace app_label
    allowed_ingress allowed_egress =
  (self,
   Raise (ValueError ("Generated policy for " ++ app_label ++ " failed validation"))).
Proof.
  intros Hrej.
  destruct (build_policy_ok namespace app_label allowed_ingress allowed_egress)
    as [policy Hb].
  unfold create_isolation_policy_with. rewrite Hb. simpl.
  now rewrite (Hrej policy Hb).
Qed.

(** The statement above at a validator that rejects everything. *)
Lemma create_isolation_policy_rejected_witness :
  create_isolation_policy_with validate_never init "test-ns" "test-app" None None =
  (init, Raise (ValueError "Generated policy for test-app failed validation")).
Proof.
  apply (create_isolation_policy_rejected validate_never init
           "test-ns" "test-app" None None).
  reflexivity.
Defined.

(** C5 as stated fails: a rejected document makes the call raise
    [ValueError], which is no [ConfigValidationError]. *)
Lemma create_isolation_policy_raises_value_error :
  exists policy e,
    build_policy "test-ns" "test-app" None None = Ok policy /\
    validate_never init policy = Ok false /\
    create_isolation_policy_with validate_never init "test-ns" "test-app" None None
      = (init, Raise e) /\
    forall msg, e <> ConfigValidationError msg.
Proof.
  eexists. eexists. split; [reflexivity|]. split; [reflexivity|].
  split; [reflexivity|]. discriminate.
Qed.

(** C6.  For every namespace, app label and optional rule lists,
    [create_isolation_policy] returns a document and appends it to the
    store; its [metadata.name] is the app label followed by
    [-isolation-policy]; a supplied rule list is under [spec.ingress] or
    [spec.egress]; when a rule list is supplied, [spec.policyTypes] has
    ["Ingress"] exactly when the ingress list is supplied and ["Egress"]
    exactly when the egress list is; when none is supplied it is
    [["Ingress", "Egress"]]. *)
Theorem create_isolation_policy_types
  (self : NetworkPolicyGenerator) (namespace app_label : string)
  (allowed_ingress allowed_egress : option (list value)) :
  exists policy policy_types,
    create_isolation_policy self namespace app_label allowed_ingress allowed_egress
      = ({| policies := policies self ++ [policy] |}, Ok policy) /\
    get_path policy ["metadata"; "name"]
      = Ok (VStr (app_label ++ "-isolation-policy")) /\
    get_path policy ["spec"; "policyTypes"] = Ok (VList policy_types) /\
    (allowed_ingress = None -> allowed_egress = None ->
     policy_types = [VStr "Ingress"; VStr "Egress"]) /\
    (allowed_ingress <> None \/ allowed_egress <> None ->
     (In (VStr "Ingress") policy_types <-> allowed_ingress <> None) /\
     (In (VStr "Egress") policy_types <-> allowed_egress <> None)) /\
    (forall rules, allowed_ingress = Some rules ->
       get_path policy ["spec"; "ingress"] = Ok (VList rules)) /\
    (forall rules, allowed_egress = Some rules ->
       get_path policy ["spec"; "egress"] = Ok (VList rules)).
Proof.
  destruct (build_policy_ok namespace app_label allowed_ingress allowed_egress)
    as [policy Hb].
  pose proof (built_policy_valid self _ _ _ _ _ Hb) as Hv.
  exists policy.
  unfold create_isolation_policy, create_isolation_policy_with.
  rewrite Hb. simpl bind. rewrite Hv. simpl negb. cbv iota.
  destruct allowed_ingress as [ing|], allowed_egress as [eg|];
    inversion Hb; subst; clear Hb Hv;
    eexists; (split; [reflexivity|]); (split; [reflexivity|]);
    (split; [reflexivity|]).
  all: split; [intros; try discriminate; reflexivity|].
  all: split; [intros Hsupplied; simpl; split; split; intros H;
                 try discriminate;
                 intuition (try discriminate; try congruence)|].
  all: split; intros rules H; inversion H; subst; reflexivity.
Qed.

(** *** The two validators *)

(** C3, as the code has it.  A document that passes the first five checks
    and has no [spec.policyTypes] key is accepted by the manager's
    [validate_network_policy]; the generator's [validate_policy] requires
    the key and returns [False] for it. *)
Theorem validators_without_policy_types
  (entries metadata spec : list (string * value)) :
  passes_structure entries metadata spec ->
  lookup "policyTypes" spec = None ->
  ConfigManager.validate_network_policy ConfigManager.init (VDict entries)
    = Ok true /\
  forall self, validate_policy self (VDict entries) = Ok false.
Proof.
  intros Hst Hnone. split.
  - now rewrite (ManagerFacts.validate_after_structure _ _ _ Hst), Hnone.
  - intros self.
    destruct Hst as (Hapi & Hkind & Hmeta & Hname & Hspec & Hsel).
    unfold validate_policy, validate_policy_body; simpl.
    unfold has_key in *. rewrite Hapi, Hkind, Hmeta, Hspec. simpl.
    destruct (lookup "name" metadata) as [name|]; [|discriminate]. simpl.
    destruct (truthy name); simpl; [|reflexivity].
    unfold has_key.
    destruct (lookup "podSelector" spec); [|discriminate]. simpl.
    now rewrite Hnone.
Qed.

(** The statement above at the sample document without [policyTypes]. *)
Lemma validators_without_policy_types_witness :
  ConfigManager.validate_network_policy ConfigManager.init
    (VDict (sample_entries [])) = Ok true /\
  validate_policy init (VDict (sample_entries [])) = Ok false.
Proof.
  destruct (validators_without_policy_types
              (sample_entries []) sample_metadata (sample_spec []))
    as [Hm Hg].
  - repeat split.
  - reflexivity.
  - split; [exact Hm|apply Hg].
Defined.

(** C3 as stated fails on the generator: the two validators do not agree on
    the sample document without [policyTypes]. *)
Lemma validators_disagree :
  let d := VDict (sample_entries []) in
  get_path d ["spec"; "policyTypes"] = Raise (KeyError "policyTypes") /\
  ConfigManager.validate_network_policy ConfigManager.init d = Ok true /\
  validate_policy init d = Ok false /\
  ConfigManager.validate_network_policy ConfigManager.init d
    <> validate_policy init d.
Proof. repeat split; try reflexivity. discriminate. Qed.

Ltac case_step :=
  match goal with
  | |- context [bind ?m _] => destruct m; simpl
  | |- context [if ?b then _ else _] => destruct b; simpl
  | |- context [match ?l with [] => _ | _ :: _ => _ end] => destruct l; simpl
  end.

(** The manager's validation has one successful answer. *)
Lemma validate_network_policy_never_false self config :
  ConfigManager.validate_network_policy self config <> Ok false.
Proof.
  unfold ConfigManager.validate_network_policy.
  repeat (case_step; try discriminate).
Qed.

(** C10.  [validate_policy] returns a boolean on every value: whatever its
    body raises is turned into [False], so nothing propagates.  The
    manager's [validate_network_policy] never answers [False]: it returns
    [True] or raises, as it does on a value that is no mapping, where the
    generator's answer is [False]. *)
Theorem validate_policy_total (self : NetworkPolicyGenerator) (policy : value) :
  (validate_policy self policy = Ok true \/
   validate_policy self policy = Ok false) /\
  (forall e, validate_policy_body policy = Raise e ->
             validate_policy self policy = Ok false) /\
  ConfigManager.validate_network_policy ConfigManager.init policy <> Ok false /\
  (validate_policy self (VInt 5) = Ok false /\
   ConfigManager.validate_network_policy ConfigManager.init (VInt 5)
     = Raise TypeError).
Proof.
  split; [|split; [|split]].
  - unfold validate_policy.
    destruct (validate_policy_body policy) as [[|]|e]; simpl; auto.
  - intros e He. unfold validate_policy. now rewrite He.
  - apply validate_network_policy_never_false.
  - split; reflexivity.
Qed.

End GeneratorFacts.

(** ** More on the manager's validation *)

Module ValidationFacts.
Import ConfigManager.

Lemma bind_ok {E A B : Type} (m : result E A) (k : A -> result E B) (b : B) :
  bind m k = Ok b -> exists a, m = Ok a /\ k a = Ok b.
Proof. destruct m as [a|e]; simpl; [eauto|discriminate]. Qed.

Lemma eq_str_true v s : eq_str v s = true -> v = VStr s.
Proof.
  destruct v; simpl; try discriminate.
  intros H. apply String.eqb_eq in H. now subst.
Qed.

Lemma valid_type_cases x :
  invalid_type ["Ingress"; "Egress"] x = false ->
  x = VStr "Ingress" \/ x = VStr "Egress".
Proof.
  unfold invalid_type; simpl. rewrite orb_false_r.
  intros H. apply negb_false_iff, orb_true_iff in H.
  destruct H as [H|H]; apply eq_str_true in H; auto.
Qed.

Lemma missing_fields_loop_dict fields entries acc :
  missing_fields_loop fields (VDict entries) acc =
  Ok (acc ++ filter (fun field => negb (has_key field entries)) fields)%list.
Proof.
  revert acc. induction fields as [|field rest IH]; intros acc; simpl.
  - now rewrite app_nil_r.
  - rewrite IH. destruct (has_key field entries); simpl; [reflexivity|].
    now rewrite <- app_assoc.
Qed.

(** X1.  On a mapping that lacks some of the four required keys, the
    manager's validation raises [ConfigValidationError] whose message lists
    exactly the absent keys, in the order [apiVersion], [kind], [metadata],
    [spec], whatever the keys that are present hold; the tutorial's
    [validate_basic_structure] raises the same message. *)
Theorem missing_fields_reported (entries : list (string * value)) :
  let missing :=
    filter (fun field => negb (has_key field entries))
      ["apiVersion"; "kind"; "metadata"; "spec"] in
  missing <> [] ->
  validate_network_policy init (VDict entries) =
    Raise (ConfigValidationError
             ("Missing required fields: " ++ py_str (VList (map VStr missing)))) /\
  Step4.validate_basic_structure Step4.init (VDict entries) =
    Raise (ConfigValidationError
             ("Missing required fields: " ++ py_str (VList (map VStr missing)))).
Proof.
  intros missing Hne. split.
  - unfold validate_network_policy.
    change (required_fields (validation_rules init))
      with ["apiVersion"; "kind"; "metadata"; "spec"].
    rewrite missing_fields_loop_dict.
    cbv beta iota delta [bind app]. fold missing.
    destruct missing; [now elim Hne|reflexivity].
  - unfold Step4.validate_basic_structure.
    change (Step4.required_fields Step4.init)
      with ["apiVersion"; "kind"; "metadata"; "spec"].
    fold missing. destruct missing; [now elim Hne|reflexivity].
Qed.

Lemma missing_fields_reported_witness :
  validate_network_policy init
    (VDict [("kind", VStr "Service"); ("spec", VInt 3)]) =
  Raise (ConfigValidationError
           "Missing required fields: ['apiVersion', 'metadata']").
Proof.
  apply (missing_fields_reported [("kind", VStr "Service"); ("spec", VInt 3)]).
  discriminate.
Defined.

Lemma no_missing_fields entries :
  has_key "apiVersion" entries = true ->
  has_key "kind" entries = true ->
  has_key "metadata" entries = true ->
  has_key "spec" entries = true ->
  missing_fields_loop ["apiVersion"; "kind"; "metadata"; "spec"]
    (VDict entries) [] = Ok [].
Proof.
  intros H1 H2 H3 H4. rewrite missing_fields_loop_dict. simpl.
  now rewrite H1, H2, H3, H4.
Qed.

(** X2.  The checks come in a fixed order.  On a mapping with the four keys,
    an [apiVersion] other than the literal is reported with the offending
    and the expected value, whatever [kind], [metadata] and [spec] hold;
    with the right [apiVersion], a [kind] other than the literal is
    reported, whatever [metadata] and [spec] hold. *)
Theorem literal_checks_in_order (entries : list (string * value))
  (apiVersion kind_ : value) :
  lookup "apiVersion" entries = Some apiVersion ->
  lookup "kind" entries = Some kind_ ->
  has_key "metadata" entries = true ->
  has_key "spec" entries = true ->
  (apiVersion <> VStr "networking.k8s.io/v1" ->
   validate_network_policy init (VDict entries) =
     Raise (ConfigValidationError
              ("Invalid apiVersion: " ++ py_str apiVersion
                 ++ ", expected: networking.k8s.io/v1"))) /\
  (apiVersion = VStr "networking.k8s.io/v1" ->
   kind_ <> VStr "NetworkPolicy" ->
   validate_network_policy init (VDict entries) =
     Raise (ConfigValidationError
              ("Invalid kind: " ++ py_str kind_ ++ ", expected: NetworkPolicy"))).
Proof.
  intros Hapi Hkind Hmeta Hspec.
  assert (Hloop : missing_fields_loop ["apiVersion"; "kind"; "metadata"; "spec"]
                    (VDict entries) [] = Ok []).
  { apply no_missing_fields; auto; unfold has_key; now rewrite ?Hapi, ?Hkind. }
  split.
  - intros Hne. unfold validate_network_policy.
    change (required_fields (validation_rules init))
      with ["apiVersion"; "kind"; "metadata"; "spec"].
    rewrite Hloop. simpl. rewrite Hapi. simpl.
    destruct (eq_str apiVersion "networking.k8s.io/v1") eqn:E; [|reflexivity].
    apply eq_str_true in E. contradiction.
  - intros -> Hne. unfold validate_network_policy.
    change (required_fields (validation_rules init))
      with ["apiVersion"; "kind"; "metadata"; "spec"].
    rewrite Hloop. simpl. rewrite Hapi, Hkind. simpl.
    destruct (eq_str kind_ "NetworkPolicy") eqn:E; [|reflexivity].
    apply eq_str_true in E. contradiction.
Qed.

Lemma literal_checks_in_order_witness :
  validate_network_policy init
    (VDict [("apiVersion", VStr "apps/v1"); ("kind", VStr "Deployment");
            ("metadata", VNone); ("spec", VNone)]) =
    Raise (ConfigValidationError
             "Invalid apiVersion: apps/v1, expected: networking.k8s.io/v1") /\
  validate_network_policy init
    (VDict [("apiVersion", VStr "networking.k8s.io/v1"); ("kind", VInt 7);
            ("metadata", VNone); ("spec", VNone)]) =
    Raise (ConfigValidationError "Invalid kind: 7, expected: NetworkPolicy").
Proof.
  split.
  - apply (proj1 (literal_checks_in_order
                    [("apiVersion", VStr "apps/v1"); ("kind", VStr "Deployment");
                     ("metadata", VNone); ("spec", VNone)]
                    (VStr "apps/v1") (VStr "Deployment")
                    eq_refl eq_refl eq_refl eq_refl)).
    discriminate.
  - apply (proj2 (literal_checks_in_order
                    [("apiVersion", VStr "networking.k8s.io/v1"); ("kind", VInt 7);
                     ("metadata", VNone); ("spec", VNone)]
                    (VStr "networking.k8s.io/v1") (VInt 7)
                    eq_refl eq_refl eq_refl eq_refl)).
    + reflexivity.
    + discriminate.
Defined.

Lemma policy_types_loop_valid items :
  policy_types_loop ["Ingress"; "Egress"] items = Ok tt ->
  forall x, In x items -> x = VStr "Ingress" \/ x = VStr "Egress".
Proof.
  rewrite ManagerFacts.policy_types_loop_find.
  destruct (find (invalid_type ["Ingress"; "Egress"]) items) eqn:Hf;
    [discriminate|].
  intros _ x Hin. apply valid_type_cases. eapply find_none; eauto.
Qed.

(** Inversion of a successful validation. *)
Lemma validate_network_policy_inv (config : value) :
  validate_network_policy init config = Ok true ->
  exists entries metadata name spec,
    config = VDict entries /\
    lookup "apiVersion" entries = Some (VStr "networking.k8s.io/v1") /\
    lookup "kind" entries = Some (VStr "NetworkPolicy") /\
    lookup "metadata" entries = Some (VDict metadata) /\
    lookup "name" metadata = Some name /\
    lookup "spec" entries = Some spec /\
    py_contains "podSelector" spec = Ok true /\
    (forall policy_types,
       py_getitem spec "policyTypes" = Ok policy_types ->
       exists items,
         py_iter policy_types = Ok items /\
         forall x, In x items -> x = VStr "Ingress" \/ x = VStr "Egress").
Proof.
  unfold validate_network_policy. intros H.
  apply bind_ok in H as (missing & _ & H).
  destruct missing; [|discriminate].
  apply bind_ok in H as (apiVersion & Hapi & H).
  destruct config as [| | | |items|entries]; try discriminate.
  simpl in Hapi.
  destruct (lookup "apiVersion" entries) as [v|] eqn:Eapi; [|discriminate].
  inversion Hapi; subst v; clear Hapi.
  destruct (eq_str apiVersion _) eqn:Ea; simpl in H; [|discriminate].
  apply eq_str_true in Ea. subst apiVersion.
  apply bind_ok in H as (kind_ & Hkind & H). simpl in Hkind.
  destruct (lookup "kind" entries) as [v|] eqn:Ekind; [|discriminate].
  inversion Hkind; subst v; clear Hkind.
  destruct (eq_str kind_ _) eqn:Ek; simpl in H; [|discriminate].
  apply eq_str_true in Ek. subst kind_.
  apply bind_ok in H as (metadata & Hmeta & H). simpl in Hmeta.
  destruct (lookup "metadata" entries) as [v|] eqn:Emeta; [|discriminate].
  inversion Hmeta; subst v; clear Hmeta.
  apply bind_ok in H as (_ & _ & H).
  apply bind_ok in H as (spec & Hspec & H). simpl in Hspec.
  destruct (lookup "spec" entries) as [v|] eqn:Espec; [|discriminate].
  inversion Hspec; subst v; clear Hspec.
  apply bind_ok in H as ([] & Hsel & H).
  apply bind_ok in H as (has_types & Hhas & H).
  apply bind_ok in H as ([] & Htypes & H).
  apply bind_ok in H as (name & Hname & _).
  destruct metadata as [| | | | |metadata]; try discriminate.
  simpl in Hname.
  destruct (lookup "name" metadata) as [v|] eqn:Ename; [|discriminate].
  exists entries, metadata, v, spec.
  repeat (split; [reflexivity || assumption|]).
  split.
  - simpl in Hsel. apply bind_ok in Hsel as (present & Hp & Hsel).
    destruct present; [exact Hp|discriminate].
  - intros policy_types Hget.
    destruct spec as [| | | | |sp]; try discriminate.
    simpl in Hget, Hhas.
    destruct (lookup "policyTypes" sp) as [v'|] eqn:Ept; [|discriminate].
    inversion Hget; subst v'; clear Hget.
    unfold has_key in Hhas. rewrite Ept in Hhas.
    inversion Hhas; subst has_types; clear Hhas.
    apply bind_ok in Htypes as (pts & Hg & Htypes).
    simpl in Hg. rewrite Ept in Hg. inversion Hg; subst pts; clear Hg.
    apply bind_ok in Htypes as (items & Hiter & Hloop).
    exists items. split; [exact Hiter|].
    now apply policy_types_loop_valid.
Qed.

(** X3.  What an accepted document is known to be.  When the manager's
    validation returns [True], the document is a mapping; its [apiVersion]
    and [kind] are the two literals; its [metadata] is a mapping with a
    [name] key; ["podSelector"] is in its [spec]; and if [spec] has a
    [policyTypes] entry, that entry can be iterated and each of its elements
    is ["Ingress"] or ["Egress"]. *)
Theorem validate_network_policy_sound (config : value) :
  validate_network_policy init config = Ok true ->
  exists entries metadata name spec,
    config = VDict entries /\
    lookup "apiVersion" entries = Some (VStr "networking.k8s.io/v1") /\
    lookup "kind" entries = Some (VStr "NetworkPolicy") /\
    lookup "metadata" entries = Some (VDict metadata) /\
    lookup "name" metadata = Some name /\
    lookup "spec" entries = Some spec /\
    py_contains "podSelector" spec = Ok true /\
    (forall policy_types,
       py_getitem spec "policyTypes" = Ok policy_types ->
       exists items,
         py_iter policy_types = Ok items /\
         forall x, In x items -> x = VStr "Ingress" \/ x = VStr "Egress").
Proof. exact (validate_network_policy_inv config). Qed.

Lemma validate_network_policy_sound_witness :
  exists entries metadata name spec,
    generate_basic_policy init "web-policy" "production" "web-app"
      = VDict entries /\
    lookup "metadata" entries = Some (VDict metadata) /\
    lookup "name" metadata = Some name /\
    lookup "spec" entries = Some spec /\
    py_contains "podSelector" spec = Ok true.
Proof.
  destruct (validate_network_policy_sound
              (generate_basic_policy init "web-policy" "production" "web-app")
              eq_refl)
    as (entries & metadata & name & spec & H1 & _ & _ & H4 & H5 & H6 & H7 & _).
  exists entries, metadata, name, spec. auto.
Defined.

(** X4.  A document that is no mapping is never accepted, and what is raised
    for it need not be a [ConfigValidationError]: [None], a bool or an int
    makes the first membership test raise [TypeError]; so does a list or a
    str holding the four key names, at the first subscript. *)
Theorem validate_network_policy_not_a_mapping (config : value) :
  is_dict config = false ->
  validate_network_policy init config <> Ok true /\
  (match config with
   | VNone | VBool _ | VInt _ => True
   | _ => False
   end ->
   validate_network_policy init config = Raise TypeError) /\
  (missing_fields_loop ["apiVersion"; "kind"; "metadata"; "spec"] config []
     = Ok [] ->
   validate_network_policy init config = Raise TypeError).
Proof.
  intros Hd. split; [|split].
  - intros H. apply validate_network_policy_inv in H
      as (entries & ? & ? & ? & -> & _). discriminate.
  - destruct config; intros []; reflexivity.
  - intros Hloop. unfold validate_network_policy.
    change (required_fields (validation_rules init))
      with ["apiVersion"; "kind"; "metadata"; "spec"].
    rewrite Hloop. simpl bind.
    destruct config; try reflexivity; discriminate.
Qed.

Lemma validate_network_policy_not_a_mapping_witness :
  validate_network_policy init
    (VList [VStr "spec"; VStr "metadata"; VStr "kind"; VStr "apiVersion"])
    = Raise TypeError /\
  validate_network_policy init (VInt 5) = Raise TypeError.
Proof.
  split.
  - apply (validate_network_policy_not_a_mapping
             (VList [VStr "spec"; VStr "metadata"; VStr "kind"; VStr "apiVersion"])
             eq_refl).
    reflexivity.
  - apply (proj1 (proj2 (validate_network_policy_not_a_mapping (VInt 5) eq_refl))).
    exact I.
Defined.

(** X5.  The sections are tested with [in], which a list answers too.  On
    a mapping with the right literals and a proper [metadata]: a [spec] that
    is a list holding ["podSelector"] is accepted when the list does not
    hold ["policyTypes"], and makes the validation raise [TypeError] (at
    [spec['policyTypes']]) when it does. *)
Theorem spec_as_a_list (entries metadata : list (string * value))
  (items : list value) :
  lookup "apiVersion" entries = Some (VStr "networking.k8s.io/v1") ->
  lookup "kind" entries = Some (VStr "NetworkPolicy") ->
  lookup "metadata" entries = Some (VDict metadata) ->
  has_key "name" metadata = true ->
  lookup "spec" entries = Some (VList items) ->
  existsb (fun x => eq_str x "podSelector") items = true ->
  validate_network_policy init (VDict entries) =
    if existsb (fun x => eq_str x "policyTypes") items
    then Raise TypeError else Ok true.
Proof.
  intros Hapi Hkind Hmeta Hname Hspec Hsel.
  destruct (ManagerFacts.has_key_lookup _ _ Hname) as [name Hn].
  unfold validate_network_policy.
  change (required_fields (validation_rules init))
    with ["apiVersion"; "kind"; "metadata"; "spec"].
  rewrite no_missing_fields
    by (unfold has_key; now rewrite ?Hapi, ?Hkind, ?Hmeta, ?Hspec).
  simpl. rewrite Hapi, Hkind, Hmeta, Hspec. simpl.
  rewrite Hname, Hsel, Hn. simpl.
  now destruct (existsb (fun x => eq_str x "policyTypes") items).
Qed.

Lemma spec_as_a_list_witness :
  validate_network_policy init
    (VDict [("apiVersion", VStr "networking.k8s.io/v1");
            ("kind", VStr "NetworkPolicy");
            ("metadata", VDict sample_metadata);
            ("spec", VList [VStr "podSelector"])]) = Ok true.
Proof.
  apply (spec_as_a_list
           [("apiVersion", VStr "networking.k8s.io/v1");
            ("kind", VStr "NetworkPolicy");
            ("metadata", VDict sample_metadata);
            ("spec", VList [VStr "podSelector"])]
           sample_metadata [VStr "podSelector"]); reflexivity.
Defined.

End ValidationFacts.

(** ** More on [add_ingress_rule] *)

Module AddIngressFacts.
Import ConfigManager.



Lemma policy_types_loop_ok items :
  (forall x, In x items -> invalid_type ["Ingress"; "Egress"] x = false) ->
  policy_types_loop ["Ingress"; "Egress"] items = Ok tt.
Proof.
  induction items as [|x rest IH]; intros H; [reflexivity|].
  simpl policy_types_loop. rewrite (H x (or_introl eq_refl)).
  apply IH. intros y Hy. apply H. now right.
Qed.








(** X9.  How [add_ingress_rule] fails.  When [config['spec']] raises (no
    such key, or [config] is no mapping), the call raises the same and the
    document is untouched.  When [spec.ingress] holds something that is no
    list, the call raises [AttributeError] and the document is untouched.
    When the membership test on [spec.policyTypes] raises (the entry is
    [None] or a number), the call raises the same after the rule has been
    appended. *)
Theorem add_ingress_rule_failures (config from_selectors ports : value) :
  (forall e, py_getitem config "spec" = Raise e ->
     add_ingress_rule init config from_selectors ports = (config, Raise e)) /\
  (forall entries spec x,
     config = VDict entries ->
     lookup "spec" entries = Some (VDict spec) ->
     lookup "ingress" spec = Some x ->
     (forall rules, x <> VList rules) ->
     add_ingress_rule init config from_selectors ports
       = (config, Raise AttributeError)) /\
  (forall entries spec policy_types e,
     config = VDict entries ->
     lookup "spec" entries = Some (VDict spec) ->
     ingress_absent_or_list spec ->
     lookup "policyTypes" spec = Some policy_types ->
     py_contains "Ingress" policy_types = Raise e ->
     add_ingress_rule init config from_selectors ports
       = (with_rule entries spec (ingress_rule from_selectors ports), Raise e)).
Proof.
  split; [|split].
  - intros e He. unfold add_ingress_rule, stmt. now rewrite He.
  - intros entries spec x -> Hspec Hx Hnl.
    unfold add_ingress_rule, stmt. simpl py_getitem. rewrite Hspec. simpl bind.
    unfold has_key. rewrite Hx. simpl negb. cbv iota.
    unfold update_in. simpl py_getitem. rewrite Hspec. simpl bind.
    rewrite Hx. simpl bind.
    destruct x; try reflexivity. now elim (Hnl items).
  - intros entries spec policy_types e -> Hspec Hingress Htypes He.
    rewrite (ManagerFacts.add_ingress_rule_appends _ _ _ _ Hspec Hingress).
    unfold stmt. cbv beta.
    rewrite (ManagerFacts.with_rule_policy_types entries spec from_selectors ports),
      Htypes.
    simpl bind. now rewrite He.
Qed.

Lemma add_ingress_rule_failures_witness :
  add_ingress_rule init (VDict [("kind", VStr "NetworkPolicy")])
    (VList []) VNone
    = (VDict [("kind", VStr "NetworkPolicy")], Raise (KeyError "spec")) /\
  add_ingress_rule init (VDict (sample_entries [("ingress", VNone)]))
    (VList []) VNone
    = (VDict (sample_entries [("ingress", VNone)]), Raise AttributeError) /\
  add_ingress_rule init (VDict (sample_entries [("policyTypes", VNone)]))
    (VList []) VNone
    = (with_rule (sample_entries [("policyTypes", VNone)])
         (sample_spec [("policyTypes", VNone)]) (ingress_rule (VList []) VNone),
       Raise TypeError).
Proof.
  split; [|split].
  - apply (proj1 (add_ingress_rule_failures
                    (VDict [("kind", VStr "NetworkPolicy")]) (VList []) VNone)).
    reflexivity.
  - apply (proj1 (proj2 (add_ingress_rule_failures
                           (VDict (sample_entries [("ingress", VNone)]))
                           (VList []) VNone))
             (sample_entries [("ingress", VNone)])
             (sample_spec [("ingress", VNone)]) VNone);
      try reflexivity. discriminate.
  - apply (proj2 (proj2 (add_ingress_rule_failures
                           (VDict (sample_entries [("policyTypes", VNone)]))
                           (VList []) VNone))
             (sample_entries [("policyTypes", VNone)])
             (sample_spec [("policyTypes", VNone)]) VNone TypeError);
      try reflexivity. left; reflexivity.
Defined.

End AddIngressFacts.

(** ** Summaries and loading *)

Module SummaryFacts.
Import ConfigManager.

Lemma count_rules_dict entries spec key count_key summary :
  lookup "spec" entries = Some (VDict spec) ->
  (lookup key spec = None \/ exists rules, lookup key spec = Some (VList rules)) ->
  count_rules (VDict entries) key count_key summary =
  Ok (match lookup key spec with
      | Some (VList rules) =>
          store count_key (VInt (Z.of_nat (List.length rules))) summary
      | _ => summary
      end).
Proof.
  intros Hspec Hkey. unfold count_rules. simpl. rewrite Hspec. simpl.
  unfold has_key.
  destruct Hkey as [Hn|[rules Hl]].
  - now rewrite Hn.
  - now rewrite Hl.
Qed.

(** X10.  On a document that has [metadata.name], [metadata.namespace],
    [spec.podSelector.matchLabels.app] and [spec.policyTypes], and whose
    [spec.ingress] and [spec.egress] are lists when present,
    [get_config_summary] returns a mapping that holds those four values,
    the two presence flags, and a rule count for [ingress] (for [egress])
    exactly when the key is present, equal to the length of the list. *)
Theorem get_config_summary_contents
  (entries metadata spec : list (string * value))
  (name namespace app_label policy_types : value) :
  lookup "metadata" entries = Some (VDict metadata) ->
  lookup "name" metadata = Some name ->
  lookup "namespace" metadata = Some namespace ->
  lookup "spec" entries = Some (VDict spec) ->
  get_path (VDict spec) ["podSelector"; "matchLabels"; "app"] = Ok app_label ->
  lookup "policyTypes" spec = Some policy_types ->
  ingress_absent_or_list spec ->
  (lookup "egress" spec = None \/
   exists rules, lookup "egress" spec = Some (VList rules)) ->
  exists summary,
    get_config_summary init (VDict entries) = Ok (VDict summary) /\
    lookup "name" summary = Some name /\
    lookup "namespace" summary = Some namespace /\
    lookup "app_label" summary = Some app_label /\
    lookup "policy_types" summary = Some policy_types /\
    lookup "has_ingress_rules" summary = Some (VBool (has_key "ingress" spec)) /\
    lookup "has_egress_rules" summary = Some (VBool (has_key "egress" spec)) /\
    lookup "ingress_rules_count" summary =
      match lookup "ingress" spec with
      | Some (VList rules) => Some (VInt (Z.of_nat (List.length rules)))
      | _ => None
      end /\
    lookup "egress_rules_count" summary =
      match lookup "egress" spec with
      | Some (VList rules) => Some (VInt (Z.of_nat (List.length rules)))
      | _ => None
      end.
Proof.
  intros Hmeta Hname Hns Hspec Happ Htypes Hing Heg.
  unfold get_config_summary.
  rewrite !(get_path_cons _ _ _ _ Hmeta), !(get_path_cons _ _ _ _ Hspec).
  rewrite Happ. simpl get_path. rewrite Hname, Hns, Htypes. simpl bind.
  simpl py_getitem. rewrite Hspec. simpl bind.
  rewrite (count_rules_dict _ _ _ _ _ Hspec Hing). simpl bind.
  rewrite (count_rules_dict _ _ _ _ _ Hspec Heg). simpl bind.
  eexists. split; [reflexivity|].
  destruct Hing as [Hi|[ri Hi]], Heg as [He|[re He]]; rewrite Hi, He;
    repeat split; reflexivity.
Qed.

(** The statement above after a rule was added to a generated document. *)
Lemma get_config_summary_contents_witness :
  exists config' summary,
    add_ingress_rule init
      (generate_basic_policy init "web-policy" "production" "web-app")
      (VList frontend_selectors) (VList tcp_8080) = (config', Ok config') /\
    get_config_summary init config' = Ok (VDict summary) /\
    lookup "app_label" summary = Some (VStr "web-app") /\
    lookup "has_ingress_rules" summary = Some (VBool true) /\
    lookup "ingress_rules_count" summary = Some (VInt 1) /\
    lookup "egress_rules_count" summary = None.
Proof.
  eexists.
  destruct (get_config_summary_contents
              [("apiVersion", VStr "networking.k8s.io/v1");
               ("kind", VStr "NetworkPolicy");
               ("metadata", VDict [
                  ("name", VStr "web-policy");
                  ("namespace", VStr "production");
                  ("labels", VDict [("generated-by", VStr "config-manager")])]);
               ("spec", VDict [
                  ("podSelector",
                   VDict [("matchLabels", VDict [("app", VStr "web-app")])]);
                  ("policyTypes", VList [VStr "Ingress"; VStr "Egress"]);
                  ("ingress",
                   VList [VDict [("from", VList frontend_selectors);
                                 ("ports", VList tcp_8080)]])])]
              _ _ (VStr "web-policy") (VStr "production") (VStr "web-app")
              (VList [VStr "Ingress"; VStr "Egress"])
              eq_refl eq_refl eq_refl eq_refl eq_refl eq_refl
              (or_intror (ex_intro _ _ eq_refl)) (or_introl eq_refl))
    as (summary & Hrun & _ & _ & Happ & _ & Hhas & _ & Hcount & Hecount).
  exists summary. split; [reflexivity|]. split; [exact Hrun|].
  split; [exact Happ|]. split; [exact Hhas|]. split; [exact Hcount|exact Hecount].
Defined.

(** X11.  The summary needs more than the validation asks for: on a
    document whose [metadata] is a mapping with a [name] and no
    [namespace], it raises [KeyError] for [namespace]; on one that has both
    and the app label but no [spec.policyTypes], it raises [KeyError] for
    [policyTypes]. *)
Theorem get_config_summary_missing_keys
  (entries metadata : list (string * value)) (name : value) :
  lookup "metadata" entries = Some (VDict metadata) ->
  lookup "name" metadata = Some name ->
  (lookup "namespace" metadata = None ->
   get_config_summary init (VDict entries) = Raise (KeyError "namespace")) /\
  (forall namespace spec app_label,
     lookup "namespace" metadata = Some namespace ->
     lookup "spec" entries = Some (VDict spec) ->
     get_path (VDict spec) ["podSelector"; "matchLabels"; "app"] = Ok app_label ->
     lookup "policyTypes" spec = None ->
     get_config_summary init (VDict entries) = Raise (KeyError "policyTypes")).
Proof.
  intros Hmeta Hname. split.
  - intros Hns. unfold get_config_summary.
    rewrite !(get_path_cons _ _ _ _ Hmeta). simpl get_path.
    now rewrite Hname, Hns.
  - intros namespace spec app_label Hns Hspec Happ Htypes.
    unfold get_config_summary.
    rewrite !(get_path_cons _ _ _ _ Hmeta), !(get_path_cons _ _ _ _ Hspec).
    rewrite Happ. simpl get_path. now rewrite Hname, Hns, Htypes.
Qed.

(** The statement above at two documents the validation accepts. *)
Lemma get_config_summary_missing_keys_witness :
  validate_network_policy init
    (VDict [("apiVersion", VStr "networking.k8s.io/v1");
            ("kind", VStr "NetworkPolicy");
            ("metadata", VDict [("name", VStr "file-test-policy")]);
            ("spec", VDict [("podSelector", sample_selector)])]) = Ok true /\
  get_config_summary init
    (VDict [("apiVersion", VStr "networking.k8s.io/v1");
            ("kind", VStr "NetworkPolicy");
            ("metadata", VDict [("name", VStr "file-test-policy")]);
            ("spec", VDict [("podSelector", sample_selector)])])
    = Raise (KeyError "namespace") /\
  validate_network_policy init (VDict (sample_entries [])) = Ok true /\
  get_config_summary init (VDict (sample_entries []))
    = Raise (KeyError "policyTypes").
Proof.
  split; [reflexivity|]. split; [|split; [reflexivity|]].
  - apply (proj1 (get_config_summary_missing_keys
                    [("apiVersion", VStr "networking.k8s.io/v1");
                     ("kind", VStr "NetworkPolicy");
                     ("metadata", VDict [("name", VStr "file-test-policy")]);
                     ("spec", VDict [("podSelector", sample_selector)])]
                    [("name", VStr "file-test-policy")]
                    (VStr "file-test-policy") eq_refl eq_refl)).
    reflexivity.
  - apply (proj2 (get_config_summary_missing_keys
                    (sample_entries []) sample_metadata (VStr "test-policy")
                    eq_refl eq_refl)
             (VStr "production") (sample_spec []) (VStr "web"));
      reflexivity.
Defined.

End SummaryFacts.

Module LoadingFacts.
Import ConfigManager.

(** X12.  Whatever the file system and the parser do,
    [load_config_from_file] either returns exactly what the parser gave,
    which is then not [None] (nothing is validated: any other value is
    returned as it is), or raises [ConfigValidationError]; no other
    exception leaves it. *)
Theorem load_config_from_file_outcomes
  (open_read : string -> result load_exn string)
  (safe_load : string -> result load_exn value) (file_path : string) :
  (forall text config,
     open_read file_path = Ok text ->
     safe_load text = Ok config ->
     config <> VNone ->
     load_config_from_file open_read safe_load init file_path = Ok config) /\
  (forall config,
     load_config_from_file open_read safe_load init file_path = Ok config ->
     config <> VNone /\
     exists text, open_read file_path = Ok text /\ safe_load text = Ok config) /\
  (forall e,
     load_config_from_file open_read safe_load init file_path = Raise e ->
     exists msg, e = ConfigValidationError msg).
Proof.
  unfold load_config_from_file. split; [|split].
  - intros text config Ho Hp Hne. rewrite Ho. simpl. rewrite Hp. simpl.
    destruct config; try reflexivity. now elim Hne.
  - intros config. destruct (open_read file_path) as [text|e] eqn:Ho; simpl.
    + destruct (safe_load text) as [c|e] eqn:Hp; simpl.
      * destruct c; simpl; intros H; inversion H; subst;
          (split; [discriminate|eauto]).
      * destruct e; discriminate.
    + destruct e; discriminate.
  - intros e. destruct (open_read file_path) as [text|e0]; simpl.
    + destruct (safe_load text) as [c|e0]; simpl.
      * destruct c; simpl; intros H; inversion H; eauto.
      * destruct e0; intros H; inversion H; eauto.
    + destruct e0; intros H; inversion H; eauto.
Qed.

Lemma load_config_from_file_outcomes_witness :
  load_config_from_file brace_files (fun _ => Ok (VInt 42)) init "any.yaml"
    = Ok (VInt 42).
Proof.
  apply (proj1 (load_config_from_file_outcomes
                  brace_files (fun _ => Ok (VInt 42)) "any.yaml") "{").
  - reflexivity.
  - reflexivity.
  - discriminate.
Defined.

Lemma filter_not_none_keeps (parsed : list value) (d : value) :
  In d (filter is_not_none parsed) <-> In d parsed /\ d <> VNone.
Proof.
  rewrite filter_In. split; intros [Hin H]; split; auto.
  - intros ->. discriminate.
  - destruct d; try reflexivity. now elim H.
Qed.

(** X13.  [load_multiple_configs] returns the documents of the stream that
    are not [None], in stream order: [None] is never among them, every other
    document is (an empty mapping or list, [0] and [False] are kept), and
    there are at most as many as were parsed.  Whatever is raised while
    opening or parsing, a missing file included, comes out as
    [ConfigValidationError] with [Error loading multiple configs:] before
    its text. *)
Theorem load_multiple_configs_outcomes
  (open_read : string -> result string string)
  (safe_load_all : string -> result string (list value)) (file_path : string) :
  (forall configs,
     load_multiple_configs open_read safe_load_all init file_path = Ok configs ->
     exists text parsed,
       open_read file_path = Ok text /\
       safe_load_all text = Ok parsed /\
       configs = filter is_not_none parsed /\
       ~ In VNone configs /\
       (forall d, In d parsed -> d <> VNone -> In d configs) /\
       (List.length configs <= List.length parsed)%nat) /\
  (forall e,
     load_multiple_configs open_read safe_load_all init file_path = Raise e ->
     exists msg,
       e = ConfigValidationError ("Error loading multiple configs: " ++ msg) /\
       (open_read file_path = Raise msg \/
        exists text, open_read file_path = Ok text /\
                     safe_load_all text = Raise msg)).
Proof.
  unfold load_multiple_configs. split.
  - intros configs.
    destruct (open_read file_path) as [text|e] eqn:Ho; simpl; [|discriminate].
    destruct (safe_load_all text) as [parsed|e] eqn:Hp; simpl; [|discriminate].
    intros H. inversion H; subst. exists text, parsed.
    repeat split; auto.
    + intros Hin. apply filter_not_none_keeps in Hin. now destruct Hin.
    + intros d Hin Hne. now apply filter_not_none_keeps.
    + apply filter_length_le.
  - intros e.
    destruct (open_read file_path) as [text|e0] eqn:Ho; simpl.
    + destruct (safe_load_all text) as [parsed|e0] eqn:Hp; simpl;
        intros H; inversion H; subst. eauto 6.
    + intros H; inversion H; subst. eauto.
Qed.

Lemma load_multiple_configs_outcomes_witness :
  load_multiple_configs (fun _ => Ok "---")
    (fun _ => Ok [VNone; VDict []; VNone; VInt 0]) init "multi.yaml"
    = Ok [VDict []; VInt 0] /\
  load_multiple_configs
    (fun _ => Raise "[Errno 2] No such file or directory: 'multi.yaml'")
    (fun _ => Ok []) init "multi.yaml"
    = Raise (ConfigValidationError
               "Error loading multiple configs: [Errno 2] No such file or directory: 'multi.yaml'").
Proof.
  split.
  - destruct (proj1 (load_multiple_configs_outcomes
                       (fun _ => Ok "---")
                       (fun _ => Ok [VNone; VDict []; VNone; VInt 0]) "multi.yaml")
                [VDict []; VInt 0] eq_refl)
      as (text & parsed & _ & Hp & Hc & _).
    inversion Hp; subst parsed. reflexivity.
  - destruct (proj2 (load_multiple_configs_outcomes
                       (fun _ => Raise "[Errno 2] No such file or directory: 'multi.yaml'")
                       (fun _ => Ok []) "multi.yaml")
                _ eq_refl)
      as (msg & He & _).
    reflexivity.
Defined.

End LoadingFacts.

(** ** More on the generator *)

Module StoreFacts.
Import Generator.

Lemma generator_loop_valid items :
  policy_types_loop ["Ingress"; "Egress"] items = true ->
  forall x, In x items -> invalid_type ["Ingress"; "Egress"] x = false.
Proof.
  induction items as [|y rest IH]; simpl; [intros _ x []|].
  destruct (invalid_type ["Ingress"; "Egress"] y) eqn:E; [discriminate|].
  intros H x [<-|Hx]; auto.
Qed.

(** Inversion of a successful validation by the generator. *)
Lemma validate_policy_inv (self : NetworkPolicyGenerator) (policy : value) :
  validate_policy self policy = Ok true ->
  exists entries metadata name spec policy_types items,
    policy = VDict entries /\
    lookup "apiVersion" entries = Some (VStr "networking.k8s.io/v1") /\
    lookup "kind" entries = Some (VStr "NetworkPolicy") /\
    lookup "metadata" entries = Some (VDict metadata) /\
    lookup "name" metadata = Some name /\
    truthy name = true /\
    lookup "spec" entries = Some (VDict spec) /\
    has_key "podSelector" spec = true /\
    lookup "policyTypes" spec = Some policy_types /\
    py_iter policy_types = Ok items /\
    forall x, In x items -> x = VStr "Ingress" \/ x = VStr "Egress".
Proof.
  unfold validate_policy. intros H.
  assert (Hb : validate_policy_body policy = Ok true).
  { destruct (validate_policy_body policy) as [b|e]; simpl in H;
      [exact H|discriminate]. }
  clear H. unfold validate_policy_body in Hb.
  apply ValidationFacts.bind_ok in Hb as (all_present & _ & H).
  destruct all_present; simpl in H; [|discriminate].
  apply ValidationFacts.bind_ok in H as (apiVersion & Hapi & H).
  destruct policy as [| | | | |entries]; try discriminate.
  simpl in Hapi.
  destruct (lookup "apiVersion" entries) as [v|] eqn:Eapi; [|discriminate].
  inversion Hapi; subst v; clear Hapi.
  destruct (eq_str apiVersion _) eqn:Ea; simpl in H; [|discriminate].
  apply ValidationFacts.eq_str_true in Ea. subst apiVersion.
  apply ValidationFacts.bind_ok in H as (kind & Hkind & H). simpl in Hkind.
  destruct (lookup "kind" entries) as [v|] eqn:Ekind; [|discriminate].
  inversion Hkind; subst v; clear Hkind.
  destruct (eq_str kind _) eqn:Ek; simpl in H; [|discriminate].
  apply ValidationFacts.eq_str_true in Ek. subst kind.
  apply ValidationFacts.bind_ok in H as (metadata & Hmeta & H). simpl in Hmeta.
  destruct (lookup "metadata" entries) as [v|] eqn:Emeta; [|discriminate].
  inversion Hmeta; subst v; clear Hmeta.
  apply ValidationFacts.bind_ok in H as (name & Hname & H).
  destruct metadata as [| | | | |metadata]; try discriminate.
  simpl in Hname.
  destruct (truthy name) eqn:Et; simpl in H; [|discriminate].
  destruct (lookup "name" metadata) as [v|] eqn:Ename;
    inversion Hname; subst name; [|discriminate].
  apply ValidationFacts.bind_ok in H as (spec & Hspec & H). simpl in Hspec.
  destruct (lookup "spec" entries) as [v'|] eqn:Espec; [|discriminate].
  inversion Hspec; subst v'; clear Hspec.
  apply ValidationFacts.bind_ok in H as (has_selector & Hsel & H).
  destruct has_selector; simpl in H; [|discriminate].
  apply ValidationFacts.bind_ok in H as (has_types & Hhas & H).
  destruct has_types; simpl in H; [|discriminate].
  apply ValidationFacts.bind_ok in H as (policy_types & Hpt & H).
  destruct spec as [| | | | |spec]; try discriminate.
  simpl in Hpt, Hsel.
  destruct (lookup "policyTypes" spec) as [v'|] eqn:Ept; [|discriminate].
  inversion Hpt; subst v'; clear Hpt.
  apply ValidationFacts.bind_ok in H as (items & Hiter & H).
  destruct (policy_types_loop ["Ingress"; "Egress"] items) eqn:Hloop;
    simpl in H; [|discriminate].
  exists entries, metadata, v, spec, policy_types, items.
  repeat (split; [reflexivity || assumption || congruence|]).
  intros x Hx. apply ValidationFacts.valid_type_cases.
  now apply (generator_loop_valid items).
Qed.

(** X14.  What a document the generator's [validate_policy] accepts is known
    to be: a mapping with the two literals, whose [metadata] is a mapping
    with a [name] that is true as a condition (a non-empty string, say),
    whose [spec] is a mapping with a [podSelector] and a [policyTypes] entry
    that can be iterated, each element being ["Ingress"] or ["Egress"]. *)
Theorem validate_policy_sound (self : NetworkPolicyGenerator) (policy : value) :
  validate_policy self policy = Ok true ->
  exists entries metadata name spec policy_types items,
    policy = VDict entries /\
    lookup "apiVersion" entries = Some (VStr "networking.k8s.io/v1") /\
    lookup "kind" entries = Some (VStr "NetworkPolicy") /\
    lookup "metadata" entries = Some (VDict metadata) /\
    lookup "name" metadata = Some name /\
    truthy name = true /\
    lookup "spec" entries = Some (VDict spec) /\
    has_key "podSelector" spec = true /\
    lookup "policyTypes" spec = Some policy_types /\
    py_iter policy_types = Ok items /\
    forall x, In x items -> x = VStr "Ingress" \/ x = VStr "Egress".
Proof. exact (validate_policy_inv self policy). Qed.

Lemma validate_policy_sound_witness :
  exists entries spec policy_types,
    VDict (sample_entries [("policyTypes", VList [VStr "Egress"])]) = VDict entries /\
    lookup "spec" entries = Some (VDict spec) /\
    lookup "policyTypes" spec = Some policy_types.
Proof.
  destruct (validate_policy_sound init
              (VDict (sample_entries [("policyTypes", VList [VStr "Egress"])]))
              eq_refl)
    as (entries & metadata & name & spec & policy_types & items & H1 & _ & _ & _
        & _ & _ & H7 & _ & H9 & _).
  exists entries, spec, policy_types. auto.
Defined.

(** X15.  The generator's validator is the stricter of the two: every
    document for which [validate_policy] returns [True] is accepted by the
    manager's [validate_network_policy]. *)
Theorem generator_valid_is_manager_valid
  (self : NetworkPolicyGenerator) (policy : value) :
  validate_policy self policy = Ok true ->
  ConfigManager.validate_network_policy ConfigManager.init policy = Ok true.
Proof.
  intros H. apply validate_policy_inv in H
    as (entries & metadata & name & spec & policy_types & items & -> & Hapi
        & Hkind & Hmeta & Hname & _ & Hspec & Hsel & Hpt & Hiter & Hitems).
  rewrite (ManagerFacts.validate_after_structure entries metadata spec).
  - rewrite Hpt, Hiter. simpl.
    rewrite AddIngressFacts.policy_types_loop_ok; [reflexivity|].
    intros x Hx. destruct (Hitems x Hx) as [-> | ->]; reflexivity.
  - repeat split; auto. unfold has_key. now rewrite Hname.
Qed.

Lemma generator_valid_is_manager_valid_witness :
  ConfigManager.validate_network_policy ConfigManager.init
    (VDict (sample_entries [("policyTypes", VList [VStr "Egress"])])) = Ok true.
Proof.
  apply (generator_valid_is_manager_valid init). reflexivity.
Defined.

(** What one creating call does, with the paths the summary reads. *)
Lemma create_isolation_policy_paths self namespace app_label
  allowed_ingress allowed_egress :
  exists policy,
    create_isolation_policy self namespace app_label allowed_ingress allowed_egress
      = ({| policies := policies self ++ [policy] |}, Ok policy) /\
    validate_policy self policy = Ok true /\
    get_path policy ["metadata"; "name"]
      = Ok (VStr (app_label ++ "-isolation-policy")) /\
    get_path policy ["metadata"; "namespace"] = Ok (VStr namespace) /\
    get_path policy ["metadata"; "labels"]
      = Ok (VDict [("generated-by", VStr "sdn-tutorial"); ("app", VStr app_label)]).
Proof.
  destruct (GeneratorFacts.build_policy_ok namespace app_label
              allowed_ingress allowed_egress) as [policy Hb].
  pose proof (GeneratorFacts.built_policy_valid self _ _ _ _ _ Hb) as Hv.
  exists policy.
  unfold create_isolation_policy, create_isolation_policy_with.
  rewrite Hb. simpl bind. rewrite Hv. simpl negb. cbv iota.
  split; [|split; [reflexivity|]];
    destruct allowed_ingress, allowed_egress; inversion Hb; subst;
    repeat split.
Qed.

Lemma run_request_paths self r :
  exists policy,
    run_request self r = ({| policies := policies self ++ [policy] |}, Ok policy) /\
    validate_policy self policy = Ok true /\
    get_path policy ["metadata"; "name"]
      = Ok (VStr (request_app r ++ "-isolation-policy")) /\
    get_path policy ["metadata"; "namespace"] = Ok (VStr (request_namespace r)) /\
    get_path policy ["metadata"; "labels"]
      = Ok (VDict [("generated-by", VStr "sdn-tutorial");
                   ("app", VStr (request_app r))]).
Proof.
  destruct r; simpl; [|unfold create_microservice_policy];
    apply create_isolation_policy_paths.
Qed.

(** The policies a sequence of calls adds, one per call. *)
Lemma run_all_added self requests :
  exists added,
    policies (run_all self requests) = (policies self ++ added)%list /\
    Forall2 (fun policy r =>
               validate_policy self policy = Ok true /\
               get_path policy ["metadata"; "name"]
                 = Ok (VStr (request_app r ++ "-isolation-policy")) /\
               get_path policy ["metadata"; "namespace"]
                 = Ok (VStr (request_namespace r)) /\
               get_path policy ["metadata"; "labels"]
                 = Ok (VDict [("generated-by", VStr "sdn-tutorial");
                              ("app", VStr (request_app r))]))
      added requests.
Proof.
  revert self. induction requests as [|r rest IH]; intros self.
  - exists []. split; [now rewrite app_nil_r|constructor].
  - destruct (run_request_paths self r) as (policy & Hrun & Hp).
    simpl. rewrite Hrun. simpl fst.
    destruct (IH {| policies := policies self ++ [policy] |}) as (added & Heq & Hall).
    exists (policy :: added). split.
    + rewrite Heq. simpl. now rewrite <- app_assoc.
    + constructor; [exact Hp|exact Hall].
Qed.

(** X16.  The store only grows, and only by valid policies: after any
    sequence of [create_isolation_policy] and [create_microservice_policy]
    calls, with any arguments, the policies that were stored are still
    there, in front and in order, followed by exactly one policy per call,
    each of which [validate_policy] accepts. *)
Theorem store_grows_by_valid_policies
  (self : NetworkPolicyGenerator) (requests : list request) :
  exists added,
    policies (run_all self requests) = (policies self ++ added)%list /\
    List.length added = List.length requests /\
    forall policy, In policy added -> validate_policy self policy = Ok true.
Proof.
  destruct (run_all_added self requests) as (added & Heq & Hall).
  exists added. split; [exact Heq|]. split.
  - eapply Forall2_length; eauto.
  - clear Heq. intros policy Hin.
    induction Hall as [|p r l rs Hp Hall IH]; [destruct Hin|].
    destruct Hin as [<-|Hin]; [apply Hp|now apply IH].
Qed.

(** X17.  [create_microservice_policy] always returns a stored, valid
    policy named after the service, with both policy types, one ingress
    rule (one pod selector per allowed service, in order, and one TCP
    entry per port) and one egress rule for UDP port 53; ports left out or
    given as an empty list are the defaults 80, 8080 and 443. *)
Theorem create_microservice_policy_shape
  (self : NetworkPolicyGenerator) (namespace service_name : string)
  (allowed_services : list string) (ports : option (list Z)) :
  exists policy,
    create_microservice_policy self namespace service_name allowed_services ports
      = ({| policies := policies self ++ [policy] |}, Ok policy) /\
    validate_policy self policy = Ok true /\
    get_path policy ["metadata"; "name"]
      = Ok (VStr (service_name ++ "-isolation-policy")) /\
    get_path policy ["spec"; "policyTypes"]
      = Ok (VList [VStr "Ingress"; VStr "Egress"]) /\
    get_path policy ["spec"; "ingress"]
      = Ok (VList [VDict [
              ("from", VList (map service_selector allowed_services));
              ("ports", VList (map tcp_port
                                 (match ports with
                                  | Some (port :: rest) => port :: rest
                                  | _ => [80; 8080; 443]%Z
                                  end)))]]) /\
    get_path policy ["spec"; "egress"]
      = Ok (VList [VDict [
              ("to", VList []);
              ("ports", VList [VDict [("protocol", VStr "UDP");
                                      ("port", VInt 53)]])]]).
Proof.
  unfold create_microservice_policy.
  destruct (create_isolation_policy_paths self namespace service_name
              (Some [VDict [("from", VList (map service_selector allowed_services));
                            ("ports", VList (map tcp_port (ports_or_default ports)))]])
              (Some [VDict [("to", VList []);
                            ("ports", VList [VDict [("protocol", VStr "UDP");
                                                    ("port", VInt 53)]])]]))
    as (policy & Hrun & Hv & Hname & _).
  exists policy. split; [exact Hrun|]. split; [exact Hv|]. split; [exact Hname|].
  unfold create_isolation_policy, create_isolation_policy_with in Hrun.
  simpl build_policy in Hrun. simpl bind in Hrun.
  destruct (validate_policy self _) as [[|]|] in Hrun; simpl in Hrun;
    inversion Hrun; subst; repeat split.
Qed.

Lemma hashable_eqb_str s y : hashable_eqb (VStr s) y = true <-> y = VStr s.
Proof.
  destruct y; simpl; split; try discriminate; intros H.
  - apply String.eqb_eq in H. now subst.
  - inversion H. apply String.eqb_refl.
Qed.

Lemma set_add_str members s :
  exists members',
    set_add members (VStr s) = Ok members' /\
    (forall x, In x members' <-> In x members \/ x = VStr s) /\
    (NoDup members -> NoDup members').
Proof.
  unfold set_add.
  destruct (existsb (hashable_eqb (VStr s)) members) eqn:E;
    eexists; (split; [reflexivity|]).
  - apply existsb_exists in E as (y & Hin & Hy).
    apply hashable_eqb_str in Hy. subst y.
    split; [|auto]. intros x; split; [auto|]. now intros [H| ->].
  - split.
    + intros x. rewrite in_app_iff. simpl. intuition.
    + intros Hnd. apply NoDup_app; auto.
      * repeat constructor. intros [].
      * intros x Hin [<-|[]].
        assert (Ht : existsb (hashable_eqb (VStr s)) members = true).
        { apply existsb_exists. exists (VStr s). split; [exact Hin|].
          now apply hashable_eqb_str. }
        congruence.
Qed.

Lemma set_of_strings (f : value -> result exn value) (g : value -> string)
  (stored members : list value) :
  (forall p, In p stored -> f p = Ok (VStr (g p))) ->
  exists members',
    set_of f stored members = Ok members' /\
    (forall x, In x members' <->
               In x members \/ exists p, In p stored /\ x = VStr (g p)) /\
    (NoDup members -> NoDup members').
Proof.
  revert members. induction stored as [|p rest IH]; intros members Hf.
  - exists members. split; [reflexivity|]. split; [|auto].
    intros x. split; [auto|]. intros [H|(p & [] & _)]. exact H.
  - cbn [set_of]. rewrite (Hf p (or_introl eq_refl)). cbn [bind].
    destruct (set_add_str members (g p)) as (m1 & Hadd & Hin1 & Hnd1).
    rewrite Hadd. cbn [bind].
    destruct (IH m1) as (m2 & Hset & Hin2 & Hnd2);
      [intros q Hq; apply Hf; now right|].
    exists m2. split; [exact Hset|]. split; [|auto].
    intros x. rewrite Hin2, Hin1. split.
    + intros [[H| ->]|(q & Hq & ->)].
      * now left.
      * right. exists p. split; [now left|reflexivity].
      * right. exists q. split; [now right|reflexivity].
    + intros [H|(q & [<-|Hq] & ->)].
      * now left; left.
      * now left; right.
      * right. eauto.
Qed.

Lemma stored_strings (f : value -> result exn value) (h : request -> string)
  (added : list value) (requests : list request) :
  Forall2 (fun p r => f p = Ok (VStr (h r))) added requests ->
  (forall p, In p added -> f p = Ok (VStr (string_of f p))) /\
  (forall x, (exists p, In p added /\ x = VStr (string_of f p)) <->
             (exists r, In r requests /\ x = VStr (h r))).
Proof.
  induction 1 as [|p r l rs Hp Hall [IH1 IH2]].
  - split; [intros p []|]. intros x; split; intros (y & [] & _).
  - assert (Hs : string_of f p = h r) by (unfold string_of; now rewrite Hp).
    split.
    + intros q [<-|Hq]; [now rewrite Hs|now apply IH1].
    + intros x. split.
      * intros (q & [<-|Hq] & ->).
        -- exists r. split; [now left|now rewrite Hs].
        -- destruct (proj1 (IH2 (VStr (string_of f q)))) as (r' & Hr' & Hx);
             [eauto|]. exists r'. split; [now right|exact Hx].
      * intros (r' & [<-|Hr'] & ->).
        -- exists p. split; [now left|now rewrite Hs].
        -- destruct (proj2 (IH2 (VStr (h r')))) as (q & Hq & Hx); [eauto|].
           exists q. split; [now right|exact Hx].
Qed.

Lemma for_each_names (stored : list value) (requests : list request) :
  Forall2 (fun policy r =>
             get_path policy ["metadata"; "name"]
               = Ok (VStr (request_app r ++ "-isolation-policy")))
    stored requests ->
  for_each (fun p => get_path p ["metadata"; "name"]) stored =
  Ok (map (fun r => VStr (request_app r ++ "-isolation-policy")) requests).
Proof.
  induction 1 as [|p r l rs Hp Hall IH]; [reflexivity|].
  cbn [for_each map]. rewrite Hp. cbn [bind]. rewrite IH. reflexivity.
Qed.

(** X18.  The summary of a generator that started empty and went through any
    sequence of creating calls: [total_policies] is the number of calls;
    [policy_names] are the names [<app>-isolation-policy], one per call, in
    call order (names may repeat); [namespaces] holds each namespace of a
    call once, and nothing else; [apps] holds each app label of a call
    once, and nothing else. *)
Theorem get_policy_summary_after_calls (requests : list request) :
  exists namespaces apps,
    get_policy_summary (run_all init requests) =
      Ok (VDict [
        ("total_policies", VInt (Z.of_nat (List.length requests)));
        ("policy_names",
         VList (map (fun r => VStr (request_app r ++ "-isolation-policy"))
                  requests));
        ("namespaces", VList namespaces);
        ("apps", VList apps)]) /\
    NoDup namespaces /\
    (forall x, In x namespaces <->
               exists r, In r requests /\ x = VStr (request_namespace r)) /\
    NoDup apps /\
    (forall x, In x apps <->
               exists r, In r requests /\ x = VStr (request_app r)).
Proof.
  destruct (run_all_added init requests) as (added & Heq & Hall).
  simpl in Heq.
  assert (Hlen : List.length added = List.length requests)
    by (eapply Forall2_length; eauto).
  assert (Hnames : Forall2 (fun policy r =>
             get_path policy ["metadata"; "name"]
               = Ok (VStr (request_app r ++ "-isolation-policy")))
            added requests).
  { eapply Forall2_impl; [|exact Hall]. intros p r H. apply H. }
  set (fns := fun p : value => get_path p ["metadata"; "namespace"]).
  set (fapp := fun p : value =>
                 labels <- get_path p ["metadata"; "labels"] ;;
                 py_get_default labels "app" (VStr "unknown")).
  assert (Hns : Forall2 (fun p r => fns p = Ok (VStr (request_namespace r)))
                  added requests).
  { eapply Forall2_impl; [|exact Hall]. intros p r H. apply H. }
  assert (Happ : Forall2 (fun p r => fapp p = Ok (VStr (request_app r)))
                   added requests).
  { eapply Forall2_impl; [|exact Hall]. intros p r (_ & _ & _ & Hl).
    unfold fapp. now rewrite Hl. }
  destruct (stored_strings _ _ _ _ Hns) as [Hns1 Hns2].
  destruct (stored_strings _ _ _ _ Happ) as [Happ1 Happ2].
  destruct (set_of_strings fns (string_of fns) added [] Hns1)
    as (namespaces & Hsn & Hin_n & Hnd_n).
  destruct (set_of_strings fapp (string_of fapp) added [] Happ1)
    as (apps & Hsa & Hin_a & Hnd_a).
  exists namespaces, apps.
  split; [|split; [apply Hnd_n; constructor|split; [|split; [apply Hnd_a; constructor|]]]].
  - unfold get_policy_summary. rewrite Heq.
    rewrite (for_each_names _ _ Hnames). cbn [bind].
    fold fns. rewrite Hsn. cbn [bind]. fold fapp. rewrite Hsa. cbn [bind].
    now rewrite Hlen.
  - intros x. rewrite Hin_n, <- Hns2. split; [intros [[]|H]; exact H|auto].
  - intros x. rewrite Hin_a, <- Happ2. split; [intros [[]|H]; exact H|auto].
Qed.

End StoreFacts.

(** ** The tutorial's validator *)

Module ConfigValidatorFacts.
Import Step4.

Lemma name_char_not_space c : name_char c = true -> is_space c = false.
Proof.
  destruct c as [[] [] [] [] [] [] [] []]; vm_compute; congruence.
Qed.

Lemma in_dash_dot c :
  is_substring (String c EmptyString) "-." = Ascii.eqb c "-" || Ascii.eqb c ".".
Proof.
  destruct c as [[] [] [] [] [] [] [] []]; reflexivity.
Qed.

Lemma all_name_chars_forall name :
  all_name_chars name = true <->
  Forall (fun c => name_char c = true) (list_ascii_of_string name).
Proof.
  induction name as [|c rest IH]; cbn [all_name_chars list_ascii_of_string].
  - split; [constructor|reflexivity].
  - rewrite in_dash_dot, andb_true_iff, IH. unfold name_char at 2.
    rewrite orb_assoc. split.
    + intros [H1 H2]. now constructor.
    + intros H. inversion H; subst. auto.
Qed.

Lemma endswith_last name :
  endswith name "-" = true <-> last_char name = Some "-"%char.
Proof.
  induction name as [|c rest IH].
  - simpl. split; discriminate.
  - cbn [endswith last_char]. destruct rest as [|d rest'].
    + simpl. rewrite orb_false_r.
      destruct (Ascii.eqb c "-") eqn:E.
      * apply Ascii.eqb_eq in E. subst. split; reflexivity.
      * split; [discriminate|]. intros [= ->]. now rewrite Ascii.eqb_refl in E.
    + rewrite <- IH.
      assert (Hs : String.eqb (String c (String d rest')) "-" = false).
      { simpl. destruct (Ascii.eqb c "-"); reflexivity. }
      rewrite Hs. reflexivity.
Qed.

Lemma starts_first name :
  is_prefix "-" name = true <-> first_char name = Some "-"%char.
Proof.
  destruct name as [|c rest]; cbn [is_prefix first_char];
    [split; discriminate|].
  rewrite andb_true_r. destruct (Ascii.eqb "-" c) eqn:E.
  - apply Ascii.eqb_eq in E. subst. split; reflexivity.
  - split; [discriminate|]. intros [= ->]. now rewrite Ascii.eqb_refl in E.
Qed.

Lemma rstrip_nonempty c s :
  is_space c = false -> rstrip (String c s) <> EmptyString.
Proof.
  intros Hc. simpl. destruct (rstrip s); [rewrite Hc|]; discriminate.
Qed.

Lemma strip_name name :
  name <> EmptyString -> all_name_chars name = true ->
  truthy (VStr (strip name)) = true.
Proof.
  destruct name as [|c rest]; [now intros H|]. intros _ H.
  cbn [all_name_chars] in H. apply andb_true_iff in H as [Hc _].
  rewrite in_dash_dot, orb_assoc in Hc. fold (name_char c) in Hc.
  apply name_char_not_space in Hc.
  unfold strip. cbn [lstrip]. rewrite Hc.
  pose proof (rstrip_nonempty c rest Hc) as Hne.
  unfold truthy. destruct (rstrip (String c rest)); [now elim Hne|reflexivity].
Qed.

(** When [validate_metadata] returns [True]. *)
Lemma validate_metadata_iff (entries : list (string * value)) :
  validate_metadata init (VDict entries) = Ok true <->
  exists metadata name,
    lookup "metadata" entries = Some (VDict metadata) /\
    lookup "name" metadata = Some (VStr name) /\
    name <> EmptyString /\
    Forall (fun c => name_char c = true) (list_ascii_of_string name) /\
    first_char name <> Some "-"%char /\
    last_char name <> Some "-"%char.
Proof.
  unfold validate_metadata, py_get_default.
  split.
  - destruct (lookup "metadata" entries) as [m|] eqn:Em; cbn [bind];
      [|discriminate].
    destruct m as [| | | | |metadata]; try discriminate.
    destruct (lookup "name" metadata) as [[| | |name| |]|] eqn:En;
      try discriminate.
    destruct (truthy (VStr (strip name))) eqn:Es; cbn [negb]; [|discriminate].
    destruct (all_name_chars name) eqn:Ec; cbn [negb]; [|discriminate].
    destruct (is_prefix "-" name) eqn:Ep; cbn [orb]; [discriminate|].
    destruct (endswith name "-") eqn:Ee; [discriminate|].
    intros _. exists metadata, name.
    split; [reflexivity|]. split; [exact En|].
    split; [intros ->; discriminate|].
    split; [now apply all_name_chars_forall|].
    split.
    + intros H. apply starts_first in H. congruence.
    + intros H. apply endswith_last in H. congruence.
  - intros (metadata & name & Hm & Hn & Hne & Hall & Hf & Hl).
    rewrite Hm. cbn [bind]. rewrite Hn.
    apply all_name_chars_forall in Hall.
    rewrite (strip_name name Hne Hall), Hall. cbn [negb].
    destruct (is_prefix "-" name) eqn:Ep;
      [apply starts_first in Ep; contradiction|].
    destruct (endswith name "-") eqn:Ee;
      [apply endswith_last in Ee; contradiction|].
    reflexivity.
Qed.

(** X19.  The names [validate_metadata] accepts: it returns [True] on a
    mapping exactly when [metadata] is a mapping whose [name] is a str that
    is not empty, is made of letters, digits, [-] and [.] only, and neither
    begins nor ends with [-]. *)
Theorem validate_metadata_accepts (entries : list (string * value)) :
  validate_metadata init (VDict entries) = Ok true <->
  exists metadata name,
    lookup "metadata" entries = Some (VDict metadata) /\
    lookup "name" metadata = Some (VStr name) /\
    name <> EmptyString /\
    Forall (fun c => name_char c = true) (list_ascii_of_string name) /\
    first_char name <> Some "-"%char /\
    last_char name <> Some "-"%char.
Proof. exact (validate_metadata_iff entries). Qed.

Lemma validate_metadata_accepts_witness :
  validate_metadata init
    (VDict [("metadata", VDict [("name", VStr "Web-1.policy")])]) = Ok true.
Proof.
  apply (proj2 (validate_metadata_accepts
                  [("metadata", VDict [("name", VStr "Web-1.policy")])])).
  exists [("name", VStr "Web-1.policy")], "Web-1.policy".
  split; [reflexivity|]. split; [reflexivity|]. split; [discriminate|].
  split; [repeat constructor|]. split; discriminate.
Defined.

Lemma filter_nil_forall (items : list value) :
  filter (invalid_type ["Ingress"; "Egress"]) items = [] <->
  forall x, In x items -> x = VStr "Ingress" \/ x = VStr "Egress".
Proof.
  induction items as [|y rest IH]; simpl.
  - split; [intros _ x []|reflexivity].
  - destruct (invalid_type ["Ingress"; "Egress"] y) eqn:E.
    + split; [discriminate|]. intros H.
      destruct (H y (or_introl eq_refl)) as [-> | ->]; discriminate.
    + rewrite IH. split.
      * intros H x [<-|Hx]; [now apply ValidationFacts.valid_type_cases|auto].
      * intros H x Hx. apply H. now right.
Qed.

(** When [validate_spec] returns [True]. *)
Lemma validate_spec_iff (entries : list (string * value)) :
  validate_spec init (VDict entries) = Ok true <->
  exists spec selector,
    lookup "spec" entries = Some (VDict spec) /\
    lookup "podSelector" spec = Some (VDict selector) /\
    (lookup "policyTypes" spec = None \/
     exists items,
       lookup "policyTypes" spec = Some (VList items) /\
       forall x, In x items -> x = VStr "Ingress" \/ x = VStr "Egress").
Proof.
  unfold validate_spec, py_get_default. split.
  - destruct (lookup "spec" entries) as [sp|] eqn:Es; cbn [bind];
      [|discriminate].
    destruct sp as [| | | | |spec]; try discriminate.
    cbn [is_dict negb py_contains py_getitem bind]. unfold has_key.
    destruct (lookup "podSelector" spec) as [sel|] eqn:Ep; cbn [negb bind];
      [|discriminate].
    destruct sel as [| | | | |selector]; try discriminate.
    cbn [is_dict negb].
    destruct (lookup "policyTypes" spec) as [pt|] eqn:Et; cbn [bind].
    + destruct pt as [| | | |items|]; try discriminate.
      change (valid_policy_types init) with ["Ingress"; "Egress"].
      destruct (filter (invalid_type ["Ingress"; "Egress"]) items) eqn:Ef;
        [|discriminate].
      intros _. exists spec, selector. split; [reflexivity|].
      split; [exact Ep|]. right. exists items. split; [exact Et|].
      now apply filter_nil_forall.
    + intros _. exists spec, selector. auto.
  - intros (spec & selector & Hs & Hp & Ht).
    rewrite Hs. cbn [bind is_dict negb py_contains py_getitem]. unfold has_key.
    rewrite Hp. cbn [negb bind is_dict].
    destruct Ht as [Hn|(items & Hi & Hall)].
    + now rewrite Hn.
    + rewrite Hi. cbn [bind].
      change (valid_policy_types init) with ["Ingress"; "Egress"].
      apply filter_nil_forall in Hall. now rewrite Hall.
Qed.

(** X20.  What [ConfigValidator.validate_spec] accepts: it returns [True]
    on a mapping exactly when [spec] is a mapping, its [podSelector] is a
    mapping, and [policyTypes] is absent or is a list whose elements are
    all ["Ingress"] or ["Egress"] (the empty list included). *)
Theorem validate_spec_accepts (entries : list (string * value)) :
  validate_spec init (VDict entries) = Ok true <->
  exists spec selector,
    lookup "spec" entries = Some (VDict spec) /\
    lookup "podSelector" spec = Some (VDict selector) /\
    (lookup "policyTypes" spec = None \/
     exists items,
       lookup "policyTypes" spec = Some (VList items) /\
       forall x, In x items -> x = VStr "Ingress" \/ x = VStr "Egress").
Proof. exact (validate_spec_iff entries). Qed.

Lemma validate_spec_accepts_witness :
  validate_spec init (VDict (sample_entries [("policyTypes", VList [])]))
    = Ok true.
Proof.
  apply (proj2 (validate_spec_accepts
                  (sample_entries [("policyTypes", VList [])]))).
  exists (sample_spec [("policyTypes", VList [])]),
    [("matchLabels", VDict [("app", VStr "web")])].
  split; [reflexivity|]. split; [reflexivity|].
  right. exists []. split; [reflexivity|]. intros x [].
Defined.

(** X21.  The tutorial's validator against the manager's.  When the five
    checks of [ConfigValidator] all return [True] on a document, its
    [apiVersion] is one of the two versions the tutorial allows; with
    [networking.k8s.io/v1] the manager's validation returns [True] too, and
    with [networking.k8s.io/v1beta1] it raises the invalid-apiVersion
    error: that version is the only point on which a document the tutorial
    accepts is refused by the manager. *)
Theorem config_validator_against_manager (config : value) :
  validate_basic_structure init config = Ok true ->
  validate_api_version init config = Ok true ->
  validate_kind init config = Ok true ->
  validate_metadata init config = Ok true ->
  validate_spec init config = Ok true ->
  (py_getitem config "apiVersion" = Ok (VStr "networking.k8s.io/v1") /\
   ConfigManager.validate_network_policy ConfigManager.init config = Ok true) \/
  (py_getitem config "apiVersion" = Ok (VStr "networking.k8s.io/v1beta1") /\
   ConfigManager.validate_network_policy ConfigManager.init config =
     Raise (ConfigValidationError
              "Invalid apiVersion: networking.k8s.io/v1beta1, expected: networking.k8s.io/v1")).
Proof.
  intros Hbasic Hapi Hkind Hmeta Hspec.
  destruct config as [| | | | |entries]; try discriminate. clear Hbasic.
  apply validate_metadata_iff in Hmeta
    as (metadata & name & Hm & Hn & _).
  apply validate_spec_iff in Hspec as (spec & selector & Hs & Hp & Ht).
  unfold validate_api_version in Hapi. unfold validate_kind in Hkind.
  simpl py_get in Hapi, Hkind.
  assert (Hk : lookup "kind" entries = Some (VStr "NetworkPolicy")).
  { destruct (lookup "kind" entries) as [k|]; cbn [bind] in Hkind.
    - destruct (invalid_type (valid_kinds init) k) eqn:E; [discriminate|].
      unfold invalid_type in E. simpl in E. rewrite orb_false_r in E.
      apply negb_false_iff, ValidationFacts.eq_str_true in E. now subst.
    - discriminate. }
  assert (Ha : lookup "apiVersion" entries = Some (VStr "networking.k8s.io/v1") \/
               lookup "apiVersion" entries
                 = Some (VStr "networking.k8s.io/v1beta1")).
  { destruct (lookup "apiVersion" entries) as [a|]; cbn [bind] in Hapi.
    - destruct (invalid_type (valid_api_versions init) a) eqn:E; [discriminate|].
      unfold invalid_type in E. simpl in E. rewrite orb_false_r in E.
      apply negb_false_iff, orb_true_iff in E.
      destruct E as [E|E]; apply ValidationFacts.eq_str_true in E; subst; auto.
    - discriminate. }
  destruct Ha as [Ha|Ha].
  - left. split; [simpl; now rewrite Ha|].
    rewrite (ManagerFacts.validate_after_structure entries metadata spec).
    + destruct Ht as [Hn0|(items & Hi & Hall)]; [now rewrite Hn0|].
      rewrite Hi. simpl.
      rewrite AddIngressFacts.policy_types_loop_ok; [reflexivity|].
      intros x Hx. destruct (Hall x Hx) as [-> | ->]; reflexivity.
    + repeat split; auto; unfold has_key; now rewrite ?Hn, ?Hp.
  - right. split; [simpl; now rewrite Ha|].
    unfold ConfigManager.validate_network_policy.
    change (ConfigManager.required_fields
              (ConfigManager.validation_rules ConfigManager.init))
      with ["apiVersion"; "kind"; "metadata"; "spec"].
    rewrite ValidationFacts.no_missing_fields
      by (unfold has_key; now rewrite ?Ha, ?Hk, ?Hm, ?Hs).
    simpl. now rewrite Ha.
Qed.

Lemma config_validator_against_manager_witness :
  ConfigManager.validate_network_policy ConfigManager.init
    (VDict (store "apiVersion" (VStr "networking.k8s.io/v1beta1")
              (sample_entries [("policyTypes", VList [VStr "Ingress"])])))
  = Raise (ConfigValidationError
             "Invalid apiVersion: networking.k8s.io/v1beta1, expected: networking.k8s.io/v1").
Proof.
  destruct (config_validator_against_manager
              (VDict (store "apiVersion" (VStr "networking.k8s.io/v1beta1")
                        (sample_entries [("policyTypes", VList [VStr "Ingress"])])))
              eq_refl eq_refl eq_refl eq_refl eq_refl)
    as [[Hv _]|[_ H]]; [discriminate|exact H].
Defined.

End ConfigValidatorFacts.

(** ** The workflow of step 6 *)

Module WorkflowFacts.
Import Step6.

(** X22.  Each of the three templates gives a policy the manager accepts,
    whatever the policy name, namespace and app label: the call logs one
    line, returns a document carrying the three parameters, whose
    [policyTypes] are the template's, with exactly one ingress rule, and
    with an [egress] list exactly for the [api-service] template. *)
Theorem template_policies_are_valid (self : NetworkPolicyWorkflow)
  (template_name policy_name namespace app_label : string) :
  In template_name ["web-frontend"; "api-service"; "database"] ->
  exists policy rule,
    create_policy_from_template self template_name policy_name namespace app_label
      = (logged self template_name policy_name, Ok policy) /\
    ConfigManager.validate_network_policy ConfigManager.init policy = Ok true /\
    get_path policy ["metadata"; "name"] = Ok (VStr policy_name) /\
    get_path policy ["metadata"; "namespace"] = Ok (VStr namespace) /\
    get_path policy ["spec"; "podSelector"; "matchLabels"; "app"]
      = Ok (VStr app_label) /\
    get_path policy ["spec"; "policyTypes"]
      = get_path templates [template_name; "policyTypes"] /\
    get_path policy ["spec"; "ingress"] = Ok (VList [rule]) /\
    (get_path policy ["spec"; "egress"] = Raise (KeyError "egress") <->
     template_name <> "api-service").
Proof.
  intros [<-|[<-|[<-|[]]]]; eexists; eexists;
    (split; [reflexivity|]); repeat (split; [reflexivity|]);
    split; try discriminate; try reflexivity; intros H; try discriminate;
    now elim H.
Qed.

Lemma template_policies_are_valid_witness :
  exists policy,
    snd (create_policy_from_template init "database" "db-test" "data" "db-app")
      = Ok policy /\
    get_path policy ["spec"; "policyTypes"] = Ok (VList [VStr "Ingress"]).
Proof.
  destruct (template_policies_are_valid init "database" "db-test" "data" "db-app")
    as (policy & rule & Hrun & _ & _ & _ & _ & Hpt & _).
  - right; right; left; reflexivity.
  - exists policy. split; [now rewrite Hrun|exact Hpt].
Defined.

(** X23.  A template name that is none of the three makes
    [create_policy_from_template] raise [ValueError] with
    [Unknown template: <name>], before anything is logged or built: the
    workflow is left as it was. *)
Theorem unknown_template_rejected (self : NetworkPolicyWorkflow)
  (template_name policy_name namespace app_label : string) :
  ~ In template_name ["web-frontend"; "api-service"; "database"] ->
  create_policy_from_template self template_name policy_name namespace app_label
    = (self, Raise (ValueError ("Unknown template: " ++ template_name))).
Proof.
  intros Hnot. unfold create_policy_from_template, templates, py_contains, has_key.
  cbn [lookup].
  destruct (String.eqb template_name "web-frontend") eqn:E1;
    [apply String.eqb_eq in E1; elim Hnot; now left|].
  destruct (String.eqb template_name "api-service") eqn:E2;
    [apply String.eqb_eq in E2; elim Hnot; right; now left|].
  destruct (String.eqb template_name "database") eqn:E3;
    [apply String.eqb_eq in E3; elim Hnot; right; right; now left|].
  reflexivity.
Qed.

Lemma unknown_template_rejected_witness :
  create_policy_from_template init "nonexistent" "test" "test" "test"
    = (init, Raise (ValueError "Unknown template: nonexistent")).
Proof.
  apply (unknown_template_rejected init "nonexistent" "test" "test" "test").
  intros [H|[H|[H|[]]]]; discriminate.
Defined.

(** X24.  What [validate_and_process_policy] does with the manager's
    verdict.  Accepted: the policy is appended to [processed_policies], one
    line is logged, the answer is [True].  Refused with a
    [ConfigValidationError], on a mapping whose [metadata] is a mapping or
    is absent: [processed_policies] is untouched, the pair of the policy's
    name (["unknown"] without one) and the message is appended to
    [validation_errors], the answer is [False].  Any other exception of the
    validation leaves the method with the workflow untouched; so does the
    [AttributeError] of the handler itself, when the refused document is a
    mapping whose [metadata] is not one. *)
Theorem validate_and_process_policy_outcomes
  (self : NetworkPolicyWorkflow) (policy : value) :
  (ConfigManager.validate_network_policy (manager self) policy = Ok true ->
   exists name,
     get_path policy ["metadata"; "name"] = Ok name /\
     validate_and_process_policy self policy =
       ({| manager := manager self;
           processed_policies := processed_policies self ++ [policy];
           validation_errors := validation_errors self;
           operation_log :=
             operation_log self
               ++ ["Validated and processed policy: " ++ py_str name] |},
        Ok (VBool true))) /\
  (forall msg entries,
     ConfigManager.validate_network_policy (manager self) policy
       = Raise (ConfigValidationError msg) ->
     policy = VDict entries ->
     (lookup "metadata" entries = None \/
      exists metadata, lookup "metadata" entries = Some (VDict metadata)) ->
     exists name,
       name_or_unknown policy = Ok name /\
       validate_and_process_policy self policy =
         ({| manager := manager self;
             processed_policies := processed_policies self;
             validation_errors := validation_errors self ++ [(name, msg)];
             operation_log :=
               operation_log self ++ ["Validation failed for policy: " ++ msg] |},
          Ok (VBool false))) /\
  (forall e,
     ConfigManager.validate_network_policy (manager self) policy = Raise e ->
     (forall msg, e <> ConfigValidationError msg) ->
     validate_and_process_policy self policy = (self, Raise e)) /\
  (forall msg entries x,
     ConfigManager.validate_network_policy (manager self) policy
       = Raise (ConfigValidationError msg) ->
     policy = VDict entries ->
     lookup "metadata" entries = Some x ->
     is_dict x = false ->
     validate_and_process_policy self policy = (self, Raise AttributeError)).
Proof.
  split; [|split; [|split]].
  - intros Hv. unfold validate_and_process_policy. rewrite Hv.
    assert (Hn : exists name, get_path policy ["metadata"; "name"] = Ok name).
    { unfold ConfigManager.validate_network_policy in Hv.
      apply ValidationFacts.bind_ok in Hv as (missing & _ & H0).
      destruct missing; [|discriminate].
      apply ValidationFacts.bind_ok in H0 as (a & _ & H1).
      destruct (negb _); [discriminate|].
      apply ValidationFacts.bind_ok in H1 as (k & _ & H2).
      destruct (negb _); [discriminate|].
      apply ValidationFacts.bind_ok in H2 as (metadata & Hm & H3).
      apply ValidationFacts.bind_ok in H3 as (u1 & _ & H4).
      apply ValidationFacts.bind_ok in H4 as (spec & _ & H5).
      apply ValidationFacts.bind_ok in H5 as (u2 & _ & H6).
      apply ValidationFacts.bind_ok in H6 as (has_types & _ & H7).
      apply ValidationFacts.bind_ok in H7 as (u3 & _ & H8).
      apply ValidationFacts.bind_ok in H8 as (name & Hname & _).
      exists name. cbn [get_path]. rewrite Hm. cbn [bind]. rewrite Hname.
      reflexivity. }
    destruct Hn as [name Hn]. exists name. split; [exact Hn|].
    now rewrite Hn.
  - intros msg entries Hv -> Hmeta.
    unfold validate_and_process_policy. rewrite Hv.
    unfold name_or_unknown. cbn [py_get_default].
    destruct Hmeta as [Hn|[metadata Hm]].
    + rewrite Hn. cbn [bind py_get_default lookup].
      eexists. split; reflexivity.
    + rewrite Hm. cbn [bind py_get_default].
      destruct (lookup "name" metadata); eexists; split; reflexivity.
  - intros e Hv Hne. unfold validate_and_process_policy. rewrite Hv.
    destruct e; try reflexivity. now elim (Hne msg).
  - intros msg entries x Hv -> Hm Hd.
    unfold validate_and_process_policy. rewrite Hv.
    unfold name_or_unknown. cbn [py_get_default]. rewrite Hm. cbn [bind].
    destruct x; try reflexivity. discriminate.
Qed.

Lemma validate_and_process_policy_outcomes_witness :
  validate_and_process_policy init
    (VDict [("kind", VStr "Service"); ("metadata", VDict [])])
  = ({| manager := ConfigManager.init;
        processed_policies := [];
        validation_errors :=
          [(VStr "unknown", "Missing required fields: ['apiVersion', 'spec']")];
        operation_log :=
          ["Validation failed for policy: Missing required fields: ['apiVersion', 'spec']"] |},
     Ok (VBool false)) /\
  validate_and_process_policy init
    (VDict [("kind", VStr "Service"); ("metadata", VNone)])
  = (init, Raise AttributeError) /\
  validate_and_process_policy init (VInt 3) = (init, Raise TypeError).
Proof.
  split; [|split].
  - destruct (proj1 (proj2 (validate_and_process_policy_outcomes init
                              (VDict [("kind", VStr "Service");
                                      ("metadata", VDict [])])))
                "Missing required fields: ['apiVersion', 'spec']"
                [("kind", VStr "Service"); ("metadata", VDict [])]
                eq_refl eq_refl (or_intror (ex_intro _ [] eq_refl)))
      as (name & Hname & Hrun).
    inversion Hname; subst name. exact Hrun.
  - apply (proj2 (proj2 (proj2 (validate_and_process_policy_outcomes init
                                  (VDict [("kind", VStr "Service");
                                          ("metadata", VNone)]))))
             "Missing required fields: ['apiVersion', 'spec']"
             [("kind", VStr "Service"); ("metadata", VNone)] VNone);
      reflexivity.
  - apply (proj1 (proj2 (proj2 (validate_and_process_policy_outcomes init
                                  (VInt 3)))) TypeError);
      [reflexivity|discriminate].
Defined.



End WorkflowFacts.
